(** * go-littr: account reconciliation, key resolution, signature
      middleware and OAuth2 start-up

    A shallow embedding of the parts of the node that the specification
    talks about:

    - [app.hideString], [app.GetOauth2Config], [app.Init] and
      [app.loadAccountData] from [app/frontend.go];
    - [api.GetKey] and [api.VerifyHttpSignature] from the [api] package;
    - [score.ScoreFmt] from the item model, over binary64 numbers.

    Go strings are byte strings and are modelled by [string] (one [ascii]
    per byte).  Pointers and interface values are modelled by their
    address, slices by their elements together with the nil/non-nil
    distinction, [time.Time] by its three machine fields.  A run-time
    panic is an explicit outcome ([Go.Panic]).  Calls into collaborators
    that live outside the files at hand ([net/url], [path], [x509], the
    account store, the federation client, the OAuth2 client, the
    signature library) are the fields of a [Collaborators] class, one per
    package, so every general statement holds for any behaviour of those
    collaborators. *)

From Stdlib Require Import ZArith Bool List Lia Ascii String.
From stdpp Require Import base option strings gmap.

Local Open Scope string_scope.
Local Open Scope list_scope.

(** ** Go values *)

Module Go.

(** A pointer (or an interface value): [nil] or the address of the
    object it refers to.  Copying a pointer copies the address only. *)
Inductive pointer : Type :=
| nil
| addr (a : N).

Definition is_nil (p : pointer) : bool :=
  match p with nil => true | addr _ => false end.

(** A slice: the nil slice, or a non-nil slice with its elements.
    [len] is 0 for both the nil slice and an empty non-nil slice. *)
Inductive slice (A : Type) : Type :=
| nil_slice
| elems (l : list A).
Arguments nil_slice {A}.
Arguments elems {A} l.

Definition len {A} (s : slice A) : nat :=
  match s with nil_slice => 0 | elems l => length l end.

(** [time.Time]: [wall] (uint64), [ext] (int64) and the location
    pointer.  Bit 63 of [wall] says whether a monotonic reading is
    present; the low 30 bits are the nanoseconds. *)
Record Time : Type := mkTime { wall : Z; ext : Z; loc : pointer }.

Definition hasMonotonic : Z := Z.shiftl 1 63.
Definition nsecMask : Z := Z.shiftl 1 30 - 1.
Definition nsecShift : Z := 30.
Definition wallToInternal : Z :=
  (1884 * 365 + 1884 / 4 - 1884 / 100 + 1884 / 400) * 86400.

Definition nsec (t : Time) : Z := Z.land (wall t) nsecMask.

Definition sec (t : Time) : Z :=
  if negb (Z.land (wall t) hasMonotonic =? 0)%Z
  then (wallToInternal
        + Z.shiftr (Z.land (Z.shiftl (wall t) 1) (Z.ones 64))
                   (nsecShift + 1))%Z
  else ext t.

Definition IsZero (t : Time) : bool :=
  ((sec t =? 0) && (nsec t =? 0))%Z.

(** [strings.Repeat s count] for a non-negative count. *)
Fixpoint strings_Repeat (s : string) (count : nat) : string :=
  match count with
  | O => ""
  | S n => s +:+ strings_Repeat s n
  end.

(** The slice expression [s[i:]] for [i <= len(s)]. *)
Fixpoint slice_from (s : string) (i : nat) : string :=
  match i, s with
  | O, _ => s
  | S j, String _ r => slice_from r j
  | S _, EmptyString => EmptyString
  end.

(** The slice expression [s[:i]] for [i <= len(s)]. *)
Fixpoint slice_to (s : string) (i : nat) : string :=
  match i, s with
  | O, _ => EmptyString
  | S j, String c r => String c (slice_to r j)
  | S _, EmptyString => EmptyString
  end.

(** Go's [error] values: the kind given by the constructor that made
    them ([errors.Errorf], [errors.Forbiddenf], ...) and the message.
    [Foreign] errors come from a collaborator. *)
Inductive errkind : Type :=
| Plain | Forbidden | NotFound | Unauthorized | Foreign.

Record error : Type := mkError { kind : errkind; message : string }.

Definition Errorf (m : string) : error := mkError Plain m.

(** The fields of [url.URL] that the node reads. *)
Record URL : Type :=
  mkURL { Scheme : string; Host : string; Path : string;
          Fragment : string }.

(** The process environment and [os.Getenv], which gives the empty
    string for a variable that is not set. *)
Definition Getenv (env : gmap string string) (key : string) : string :=
  default "" (env !! key).

(** The outcome of a call that may panic. *)
Inductive result (A : Type) : Type :=
| Done (a : A)
| Panic (reason : string).
Arguments Done {A} a.
Arguments Panic {A} reason.

Definition bind {A B} (r : result A) (k : A -> result B) : result B :=
  match r with
  | Done a => k a
  | Panic m => Panic m
  end.

Definition nil_dereference : string :=
  "invalid memory address or nil pointer dereference".

End Go.

Notation "x <- r ;; k" := (Go.bind r (fun x => k))
  (at level 100, r at next level, right associativity).

(** ** Log entries *)

Module log.

Inductive level : Type :=
| DebugLevel | InfoLevel | WarnLevel | ErrorLevel.

(** One emitted entry: level, message format, the arguments of the
    format and the context pairs given to the logger. *)
Record Entry : Type :=
  mkEntry { lvl : level; text : string; args : list string;
            ctx : list (string * string) }.

End log.

(** ** Package [app]: [frontend.go] *)

Module app.

Import Go.

Definition sessionsFSBackend : string := "fs".

(** [hideString]: frontend.go, lines 49-58. *)
Definition hideString (s : string) : string :=
  let l := String.length s in
  if (l <=? 3)%nat then "***"
  else
    let ss := strings_Repeat "*" (l - 3) in
    ss +:+ slice_from s (l - 3).

(** The masking rule in the words of the specification: every
    character except the last three is replaced by a star. *)
Fixpoint star_first (k : nat) (s : string) : string :=
  match k, s with
  | O, _ => s
  | S j, String _ r => String "*"%char (star_first j r)
  | S _, EmptyString => EmptyString
  end.

Definition mask_all_but_last3 (s : string) : string :=
  star_first (String.length s - 3) s.

(** *** Accounts *)

(** An account hash is a string type. *)
Definition HashT : Type := string.

(** Modelled from the spec: the declaration of [Vote] is not among the
    sources; section 3 of the specification gives its fields. *)
Record Vote : Type :=
  mkVote { SubmittedBy : pointer; Item : pointer; Weight : Z;
           SubmittedAt : Time }.

(** Modelled from the spec: the declaration of [Account] is not among the
    sources.  The fields are the ones [loadAccountData] reads and
    writes, with the types its tests on them require: [len] for strings
    and collections, [IsZero] for times, comparison with [nil] for
    [CreatedBy], [Metadata], [pub] and [Parent].  The four account
    collections hold account references by hash (section 3). *)
Record Account : Type :=
  mkAccount {
    Hash : HashT;
    Email : string;
    Handle : string;
    CreatedAt : Time;
    CreatedBy : pointer;
    UpdatedAt : Time;
    Metadata : pointer;
    pub : pointer;
    Votes : slice Vote;
    Followers : slice HashT;
    Following : slice HashT;
    Blocked : slice HashT;
    Ignored : slice HashT;
    Parent : pointer;
    Children : slice pointer }.

Definition set_Email (v : string) (a : Account) : Account :=
  {| Hash := Hash a; Email := v; Handle := Handle a;
     CreatedAt := CreatedAt a; CreatedBy := CreatedBy a;
     UpdatedAt := UpdatedAt a; Metadata := Metadata a; pub := pub a;
     Votes := Votes a; Followers := Followers a;
     Following := Following a; Blocked := Blocked a;
     Ignored := Ignored a; Parent := Parent a; Children := Children a |}.

Definition set_Handle (v : string) (a : Account) : Account :=
  {| Hash := Hash a; Email := Email a; Handle := v;
     CreatedAt := CreatedAt a; CreatedBy := CreatedBy a;
     UpdatedAt := UpdatedAt a; Metadata := Metadata a; pub := pub a;
     Votes := Votes a; Followers := Followers a;
     Following := Following a; Blocked := Blocked a;
     Ignored := Ignored a; Parent := Parent a; Children := Children a |}.

Definition set_CreatedAt (v : Time) (a : Account) : Account :=
  {| Hash := Hash a; Email := Email a; Handle := Handle a;
     CreatedAt := v; CreatedBy := CreatedBy a; UpdatedAt := UpdatedAt a;
     Metadata := Metadata a; pub := pub a; Votes := Votes a;
     Followers := Followers a; Following := Following a;
     Blocked := Blocked a; Ignored := Ignored a; Parent := Parent a;
     Children := Children a |}.

Definition set_CreatedBy (v : pointer) (a : Account) : Account :=
  {| Hash := Hash a; Email := Email a; Handle := Handle a;
     CreatedAt := CreatedAt a; CreatedBy := v; UpdatedAt := UpdatedAt a;
     Metadata := Metadata a; pub := pub a; Votes := Votes a;
     Followers := Followers a; Following := Following a;
     Blocked := Blocked a; Ignored := Ignored a; Parent := Parent a;
     Children := Children a |}.

Definition set_UpdatedAt (v : Time) (a : Account) : Account :=
  {| Hash := Hash a; Email := Email a; Handle := Handle a;
     CreatedAt := CreatedAt a; CreatedBy := CreatedBy a; UpdatedAt := v;
     Metadata := Metadata a; pub := pub a; Votes := Votes a;
     Followers := Followers a; Following := Following a;
     Blocked := Blocked a; Ignored := Ignored a; Parent := Parent a;
     Children := Children a |}.

Definition set_Metadata (v : pointer) (a : Account) : Account :=
  {| Hash := Hash a; Email := Email a; Handle := Handle a;
     CreatedAt := CreatedAt a; CreatedBy := CreatedBy a;
     UpdatedAt := UpdatedAt a; Metadata := v; pub := pub a;
     Votes := Votes a; Followers := Followers a;
     Following := Following a; Blocked := Blocked a;
     Ignored := Ignored a; Parent := Parent a; Children := Children a |}.

Definition set_pub (v : pointer) (a : Account) : Account :=
  {| Hash := Hash a; Email := Email a; Handle := Handle a;
     CreatedAt := CreatedAt a; CreatedBy := CreatedBy a;
     UpdatedAt := UpdatedAt a; Metadata := Metadata a; pub := v;
     Votes := Votes a; Followers := Followers a;
     Following := Following a; Blocked := Blocked a;
     Ignored := Ignored a; Parent := Parent a; Children := Children a |}.

Definition set_Votes (v : slice Vote) (a : Account) : Account :=
  {| Hash := Hash a; Email := Email a; Handle := Handle a;
     CreatedAt := CreatedAt a; CreatedBy := CreatedBy a;
     UpdatedAt := UpdatedAt a; Metadata := Metadata a; pub := pub a;
     Votes := v; Followers := Followers a; Following := Following a;
     Blocked := Blocked a; Ignored := Ignored a; Parent := Parent a;
     Children := Children a |}.

Definition set_Followers (v : slice HashT) (a : Account) : Account :=
  {| Hash := Hash a; Email := Email a; Handle := Handle a;
     CreatedAt := CreatedAt a; CreatedBy := CreatedBy a;
     UpdatedAt := UpdatedAt a; Metadata := Metadata a; pub := pub a;
     Votes := Votes a; Followers := v; Following := Following a;
     Blocked := Blocked a; Ignored := Ignored a; Parent := Parent a;
     Children := Children a |}.

Definition set_Following (v : slice HashT) (a : Account) : Account :=
  {| Hash := Hash a; Email := Email a; Handle := Handle a;
     CreatedAt := CreatedAt a; CreatedBy := CreatedBy a;
     UpdatedAt := UpdatedAt a; Metadata := Metadata a; pub := pub a;
     Votes := Votes a; Followers := Followers a; Following := v;
     Blocked := Blocked a; Ignored := Ignored a; Parent := Parent a;
     Children := Children a |}.

Definition set_Blocked (v : slice HashT) (a : Account) : Account :=
  {| Hash := Hash a; Email := Email a; Handle := Handle a;
     CreatedAt := CreatedAt a; CreatedBy := CreatedBy a;
     UpdatedAt := UpdatedAt a; Metadata := Metadata a; pub := pub a;
     Votes := Votes a; Followers := Followers a;
     Following := Following a; Blocked := v; Ignored := Ignored a;
     Parent := Parent a; Children := Children a |}.

Definition set_Ignored (v : slice HashT) (a : Account) : Account :=
  {| Hash := Hash a; Email := Email a; Handle := Handle a;
     CreatedAt := CreatedAt a; CreatedBy := CreatedBy a;
     UpdatedAt := UpdatedAt a; Metadata := Metadata a; pub := pub a;
     Votes := Votes a; Followers := Followers a;
     Following := Following a; Blocked := Blocked a; Ignored := v;
     Parent := Parent a; Children := Children a |}.

Definition set_Parent (v : pointer) (a : Account) : Account :=
  {| Hash := Hash a; Email := Email a; Handle := Handle a;
     CreatedAt := CreatedAt a; CreatedBy := CreatedBy a;
     UpdatedAt := UpdatedAt a; Metadata := Metadata a; pub := pub a;
     Votes := Votes a; Followers := Followers a;
     Following := Following a; Blocked := Blocked a;
     Ignored := Ignored a; Parent := v; Children := Children a |}.

Definition set_Children (v : slice pointer) (a : Account) : Account :=
  {| Hash := Hash a; Email := Email a; Handle := Handle a;
     CreatedAt := CreatedAt a; CreatedBy := CreatedBy a;
     UpdatedAt := UpdatedAt a; Metadata := Metadata a; pub := pub a;
     Votes := Votes a; Followers := Followers a;
     Following := Following a; Blocked := Blocked a;
     Ignored := Ignored a; Parent := Parent a; Children := v |}.

(** Modelled from the spec: [HashesEqual] is not among the sources;
    section 4.5 of the specification describes the identity check as
    exact byte equality of the two hashes. *)
Definition HashesEqual (h1 h2 : HashT) : bool := bool_decide (h1 = h2).

(** The fourteen conditional assignments of [loadAccountData]
    (frontend.go, lines 332-373), one definition per [if] statement;
    [a] is the account behind the pointer, [b] the second argument. *)
Definition fill_Email (b a : Account) : Account :=
  if (String.length (Email a) =? 0)%nat && (0 <? String.length (Email b))%nat
  then set_Email (Email b) a else a.

Definition fill_Handle (b a : Account) : Account :=
  if (String.length (Handle a) =? 0)%nat
     && (0 <? String.length (Handle b))%nat
  then set_Handle (Handle b) a else a.

Definition fill_CreatedAt (b a : Account) : Account :=
  if IsZero (CreatedAt a) && negb (IsZero (CreatedAt b))
  then set_CreatedAt (CreatedAt b) a else a.

Definition fill_CreatedBy (b a : Account) : Account :=
  if is_nil (CreatedBy a) && negb (is_nil (CreatedBy b))
  then set_CreatedBy (CreatedBy b) a else a.

Definition fill_UpdatedAt (b a : Account) : Account :=
  if IsZero (UpdatedAt a) && negb (IsZero (UpdatedAt b))
  then set_UpdatedAt (UpdatedAt b) a else a.

Definition fill_Metadata (b a : Account) : Account :=
  if is_nil (Metadata a) && negb (is_nil (Metadata b))
  then set_Metadata (Metadata b) a else a.

Definition fill_pub (b a : Account) : Account :=
  if is_nil (pub a) && negb (is_nil (pub b))
  then set_pub (pub b) a else a.

Definition fill_Votes (b a : Account) : Account :=
  if (len (Votes a) =? 0)%nat && (0 <? len (Votes b))%nat
  then set_Votes (Votes b) a else a.

Definition fill_Followers (b a : Account) : Account :=
  if (len (Followers a) =? 0)%nat && (0 <? len (Followers b))%nat
  then set_Followers (Followers b) a else a.

Definition fill_Following (b a : Account) : Account :=
  if (len (Following a) =? 0)%nat && (0 <? len (Following b))%nat
  then set_Following (Following b) a else a.

Definition fill_Blocked (b a : Account) : Account :=
  if (len (Blocked a) =? 0)%nat && (0 <? len (Blocked b))%nat
  then set_Blocked (Blocked b) a else a.

Definition fill_Ignored (b a : Account) : Account :=
  if (len (Ignored a) =? 0)%nat && (0 <? len (Ignored b))%nat
  then set_Ignored (Ignored b) a else a.

Definition fill_Parent (b a : Account) : Account :=
  if is_nil (Parent a) && negb (is_nil (Parent b))
  then set_Parent (Parent b) a else a.

Definition fill_Children (b a : Account) : Account :=
  if (len (Children a) =? 0)%nat && (0 <? len (Children b))%nat
  then set_Children (Children b) a else a.

(** [loadAccountData]: frontend.go, lines 328-374.  The function
    mutates the account behind its first argument; the model returns
    the account that is behind the pointer when the call returns. *)
Definition loadAccountData (a b : Account) : Account :=
  if negb (HashesEqual (Hash a) (Hash b)) then a
  else
    let a := fill_Email b a in
    let a := fill_Handle b a in
    let a := fill_CreatedAt b a in
    let a := fill_CreatedBy b a in
    let a := fill_UpdatedAt b a in
    let a := fill_Metadata b a in
    let a := fill_pub b a in
    let a := fill_Votes b a in
    let a := fill_Followers b a in
    let a := fill_Following b a in
    let a := fill_Blocked b a in
    let a := fill_Ignored b a in
    let a := fill_Parent b a in
    let a := fill_Children b a in
    a.

(** The merged fields, and the value an account holds in each. *)
Inductive field : Type :=
| FEmail | FHandle | FCreatedAt | FCreatedBy | FUpdatedAt | FMetadata
| Fpub | FVotes | FFollowers | FFollowing | FBlocked | FIgnored
| FParent | FChildren.

Inductive value : Type :=
| VString (s : string)
| VTime (t : Time)
| VPointer (p : pointer)
| VVotes (s : slice Vote)
| VHashes (s : slice HashT)
| VPointers (s : slice pointer).

Definition get (f : field) (a : Account) : value :=
  match f with
  | FEmail => VString (Email a)
  | FHandle => VString (Handle a)
  | FCreatedAt => VTime (CreatedAt a)
  | FCreatedBy => VPointer (CreatedBy a)
  | FUpdatedAt => VTime (UpdatedAt a)
  | FMetadata => VPointer (Metadata a)
  | Fpub => VPointer (pub a)
  | FVotes => VVotes (Votes a)
  | FFollowers => VHashes (Followers a)
  | FFollowing => VHashes (Following a)
  | FBlocked => VHashes (Blocked a)
  | FIgnored => VHashes (Ignored a)
  | FParent => VPointer (Parent a)
  | FChildren => VPointers (Children a)
  end.

(** A value is populated when it is not the empty string, not the zero
    time, not [nil], not a collection of length 0. *)
Definition populated (v : value) : bool :=
  match v with
  | VString s => negb (String.length s =? 0)%nat
  | VTime t => negb (IsZero t)
  | VPointer p => negb (is_nil p)
  | VVotes s => negb (len s =? 0)%nat
  | VHashes s => negb (len s =? 0)%nat
  | VPointers s => negb (len s =? 0)%nat
  end.

(** Two sources agree on the gaps of [dst] when, for every field that
    is empty in [dst] and populated in both, they carry the same
    value. *)
Definition agree_on_gaps (dst s1 s2 : Account) : Prop :=
  forall f : field,
    populated (get f dst) = false ->
    populated (get f s1) = true ->
    populated (get f s2) = true ->
    get f s1 = get f s2.

(** The value a field holds after its conditional assignment, given the
    value [x] it held before and the value [y] of the source. *)
Definition gap_string (x y : string) : string :=
  if (String.length x =? 0)%nat && (0 <? String.length y)%nat
  then y else x.

Definition gap_time (x y : Time) : Time :=
  if IsZero x && negb (IsZero y) then y else x.

Definition gap_pointer (x y : pointer) : pointer :=
  if is_nil x && negb (is_nil y) then y else x.

Definition gap_slice {A} (x y : slice A) : slice A :=
  if (len x =? 0)%nat && (0 <? len y)%nat then y else x.

(** The same rule over any test for emptiness. *)
Definition gap {A} (empty : A -> bool) (x y : A) : A :=
  if empty x && negb (empty y) then y else x.

Definition empty_string (s : string) : bool := (String.length s =? 0)%nat.
Definition empty_slice {A} (s : slice A) : bool := (len s =? 0)%nat.

(** The account after a merge that passes the identity check, field by
    field. *)
Definition merged (a b : Account) : Account :=
  {| Hash := Hash a;
     Email := gap_string (Email a) (Email b);
     Handle := gap_string (Handle a) (Handle b);
     CreatedAt := gap_time (CreatedAt a) (CreatedAt b);
     CreatedBy := gap_pointer (CreatedBy a) (CreatedBy b);
     UpdatedAt := gap_time (UpdatedAt a) (UpdatedAt b);
     Metadata := gap_pointer (Metadata a) (Metadata b);
     pub := gap_pointer (pub a) (pub b);
     Votes := gap_slice (Votes a) (Votes b);
     Followers := gap_slice (Followers a) (Followers b);
     Following := gap_slice (Following a) (Following b);
     Blocked := gap_slice (Blocked a) (Blocked b);
     Ignored := gap_slice (Ignored a) (Ignored b);
     Parent := gap_pointer (Parent a) (Parent b);
     Children := gap_slice (Children a) (Children b) |}.

(** *** OAuth2 configuration and start-up *)

Record oauth2_Endpoint : Type :=
  mkEndpoint { AuthURL : string; TokenURL : string }.

Record oauth2_Config : Type :=
  mkConfig { ClientID : string; ClientSecret : string;
             Endpoint : oauth2_Endpoint; RedirectURL : string }.

Definition set_RedirectURL (v : string) (c : oauth2_Config)
  : oauth2_Config :=
  {| ClientID := ClientID c; ClientSecret := ClientSecret c;
     Endpoint := Endpoint c; RedirectURL := v |}.

Record oauth2_Token : Type :=
  mkToken { AccessToken : string; TokenType : string;
            RefreshToken : string }.

(** [OAuth] as the composite literal in [HandleCallback] lists it; the
    token is a pointer, [None] when nil. *)
Record OAuth : Type :=
  mkOAuth { State : string; Code : string; Provider : string;
            Token : option oauth2_Token }.

Record AccountMetadata : Type := mkMetadata { Metadata_OAuth : OAuth }.

(** [appConfig]: frontend.go, lines 37-44.  [UserCreatingEnabled] is
    the field of the embedded [config.Configuration] that [Init]
    writes. *)
Record appConfig : Type :=
  mkAppConfig {
    UserCreatingEnabled : bool;
    BaseURL : string;
    SessionKeys : list string;
    SessionsBackend : string;
    SessionsPath : string;
    Logger : pointer }.

Record repository : Type :=
  mkRepository { storage_BaseURL : string; storage_app : option Account }.

(** [handler]: frontend.go, lines 26-33.  [infoFn] and [errFn] are
    determined by [logger]: they emit when it is not nil and do nothing
    otherwise. *)
Record handler : Type :=
  mkHandler { conf : appConfig; v : pointer; storage : repository;
              logger : pointer }.

(** What [Init] acts on besides its arguments: the objects behind the
    accounts' [Metadata] pointers and the entries emitted so far. *)
Record world : Type :=
  mkWorld { heap : gmap N AccountMetadata; emitted : list log.Entry }.

(** The collaborators of this file. *)
Class Collaborators : Type :=
  { Actor : Type;
    strings_ToLower : string -> string;
    url_Parse : string -> URL + error;
    os_TempDir : string;
    ActivityPubService : appConfig -> repository;
    actors_IRI : string -> string -> string;
    fedbox_Actor : string -> option Actor * option error;
    FromActivityPub :
      Actor -> gmap N AccountMetadata -> Account * gmap N AccountMetadata;
    PasswordCredentialsToken :
      oauth2_Config -> string -> string
      -> option oauth2_Token * option error;
    ViewInit : appConfig -> pointer * option error;
    Sprint_Config : oauth2_Config -> string }.

Section TokenManager.

Context `{Collaborators}.
Variable env : gmap string string.

(** [GetOauth2Config]: frontend.go, lines 208-265.  [url.Parse] gives
    a URL ([inl]) or a nil URL and an error ([inr]). *)
Definition GetOauth2Config (provider localBaseURL : string)
  : oauth2_Config :=
  let p := strings_ToLower provider in
  let config :=
    if decide (p = "github") then
      {| ClientID := Getenv env "GITHUB_KEY";
         ClientSecret := Getenv env "GITHUB_SECRET";
         Endpoint :=
           {| AuthURL := "https://github.com/login/oauth/authorize";
              TokenURL := "https://github.com/login/oauth/access_token" |};
         RedirectURL := "" |}
    else if decide (p = "gitlab") then
      {| ClientID := Getenv env "GITLAB_KEY";
         ClientSecret := Getenv env "GITLAB_SECRET";
         Endpoint :=
           {| AuthURL := "https://gitlab.com/login/oauth/authorize";
              TokenURL := "https://gitlab.com/login/oauth/access_token" |};
         RedirectURL := "" |}
    else if decide (p = "facebook") then
      {| ClientID := Getenv env "FACEBOOK_KEY";
         ClientSecret := Getenv env "FACEBOOK_SECRET";
         Endpoint :=
           {| AuthURL := "https://graph.facebook.com/oauth/authorize";
              TokenURL :=
                "https://graph.facebook.com/oauth/access_token" |};
         RedirectURL := "" |}
    else if decide (p = "google") then
      {| ClientID := Getenv env "GOOGLE_KEY";
         ClientSecret := Getenv env "GOOGLE_SECRET";
         Endpoint :=
           {| AuthURL := "https://accounts.google.com/o/oauth2/auth";
              TokenURL := "https://accounts.google.com/o/oauth2/token" |};
         RedirectURL := "" |}
    else
      let apiURL := Getenv env "API_URL" in
      {| ClientID := Getenv env "OAUTH2_KEY";
         ClientSecret := Getenv env "OAUTH2_SECRET";
         Endpoint :=
           {| AuthURL := apiURL +:+ "/oauth/authorize";
              TokenURL := apiURL +:+ "/oauth/token" |};
         RedirectURL := "" |}
  in
  let confOauth2URL := Getenv env "OAUTH2_URL" in
  let callback := localBaseURL +:+ "/auth/" +:+ provider +:+ "/callback" in
  match url_Parse confOauth2URL with
  | inr _ => set_RedirectURL callback config
  | inl u =>
      if decide (Host u = "") then set_RedirectURL callback config
      else config
  end.

(** [loadEnvSessionKeys]: frontend.go, lines 520-529. *)
Definition loadEnvSessionKeys : list string :=
  let keys := [] in
  let authKey := Getenv env "SESS_AUTH_KEY" in
  let keys :=
    if (16 <=? String.length authKey)%nat
    then keys ++ [slice_to authKey 16] else keys in
  let encKey := Getenv env "SESS_ENC_KEY" in
  let keys :=
    if (16 <=? String.length encKey)%nat
    then keys ++ [slice_to encKey 16] else keys in
  keys.

(** [h.conf.UserCreatingEnabled = false]. *)
Definition disable_user_creating (h : handler) : handler :=
  {| conf :=
       {| UserCreatingEnabled := false;
          BaseURL := BaseURL (conf h);
          SessionKeys := SessionKeys (conf h);
          SessionsBackend := SessionsBackend (conf h);
          SessionsPath := SessionsPath (conf h);
          Logger := Logger (conf h) |};
     v := v h; storage := storage h; logger := logger h |}.

(** A call of [h.infoFn] or [h.errFn]. *)
Definition emit (h : handler) (l : log.level) (msg : string)
           (a : list string) (c : list (string * string)) (w : world)
  : world :=
  if is_nil (logger h) then w
  else {| heap := heap w;
          emitted := emitted w ++ [log.mkEntry l msg a c] |}.

(** An assignment to a field of [Metadata.OAuth] through the
    account's [Metadata] pointer. *)
Definition assign_OAuth (p : pointer) (f : OAuth -> OAuth) (w : world)
  : result world :=
  match p with
  | nil => Panic nil_dereference
  | addr n =>
      Done {| heap :=
                alter (fun m => mkMetadata (f (Metadata_OAuth m)))
                      n (heap w);
              emitted := emitted w |}
  end.

(** Lines 89-134 of [Init]: the password grant for the federation
    provider. *)
Definition authorize_client (h : handler) (w : world)
  : result (handler * world) :=
  let provider := "fedbox" in
  let config := GetOauth2Config provider (BaseURL (conf h)) in
  if (0 <? String.length (ClientID config))%nat then
    let oIRI :=
      actors_IRI (storage_BaseURL (storage h)) (ClientID config) in
    let '(oauth, err) := fedbox_Actor oIRI in
    let '(h, w) :=
      match err with
      | Some e =>
          (disable_user_creating h,
           emit h log.ErrorLevel "Failed to load actor: %s"
                [message e] [] w)
      | None => (h, w)
      end in
    match oauth with
    | Some actor =>
        let '(app, hp) := FromActivityPub actor (heap w) in
        let w := {| heap := hp; emitted := emitted w |} in
        let h :=
          {| conf := conf h; v := v h;
             storage :=
               {| storage_BaseURL := storage_BaseURL (storage h);
                  storage_app := Some app |};
             logger := logger h |} in
        let handle := Handle app in
        let '(tok, err) :=
          PasswordCredentialsToken config handle (ClientSecret config) in
        let ctx :=
          [("handle", handle); ("provider", provider);
           ("client", ClientID config);
           ("pw", hideString (ClientSecret config));
           ("authURL", AuthURL (Endpoint config));
           ("tokURL", TokenURL (Endpoint config));
           ("redirectURL", RedirectURL config)] in
        match err with
        | Some e =>
            Done (disable_user_creating h,
                  emit h log.ErrorLevel "Failed to authenticate client" []
                       (("err", message e) :: ctx) w)
        | None =>
            let '(h, w) :=
              match tok with
              | None =>
                  (disable_user_creating h,
                   emit h log.ErrorLevel
                        "Failed to load a valid OAuth2 token for client"
                        [] ctx w)
              | Some _ => (h, w)
              end in
            w <- assign_OAuth (Metadata app)
                   (fun o => mkOAuth (State o) (Code o) provider (Token o))
                   w ;;
            w <- assign_OAuth (Metadata app)
                   (fun o => mkOAuth (State o) (Code o) (Provider o) tok)
                   w ;;
            match tok with
            | None => Panic nil_dereference
            | Some t =>
                Done (h,
                      emit h log.InfoLevel
                           "Loaded valid OAuth2 token for client" []
                           (ctx ++
                            [("token", hideString (AccessToken t));
                             ("type", TokenType t);
                             ("refresh", hideString (RefreshToken t))])
                           w)
            end
        end
    | None => Done (h, w)
    end
  else
    Done (disable_user_creating h,
          emit h log.ErrorLevel "Failed to load OAuth2 ClientID" []
               [("conf", Sprint_Config config)] w).

(** [Init]: frontend.go, lines 60-140. *)
Definition Init (c : appConfig) (w : world)
  : result (handler * option error * world) :=
  let backend := Getenv env "SESSIONS_BACKEND" in
  let backend :=
    if decide (backend = "") then sessionsFSBackend else backend in
  let spath := Getenv env "SESSIONS_PATH" in
  let spath := if decide (spath = "") then os_TempDir else spath in
  let c :=
    {| UserCreatingEnabled := UserCreatingEnabled c;
       BaseURL := BaseURL c;
       SessionKeys := loadEnvSessionKeys;
       SessionsBackend := strings_ToLower backend;
       SessionsPath := spath;
       Logger := Logger c |} in
  let h :=
    {| conf := c; v := nil; storage := ActivityPubService c;
       logger := Logger c |} in
  hw <- authorize_client h w ;;
  let '(h, w) := hw in
  let '(view, err) := ViewInit (conf h) in
  let h :=
    {| conf := conf h; v := view; storage := storage h;
       logger := logger h |} in
  let w :=
    match err with
    | Some e =>
        emit h log.ErrorLevel "Error initializing view" []
             [("err", message e)] w
    | None => w
    end in
  Done (h, err, w).

End TokenManager.

End app.

(** ** Package [api]: key resolution and the signature middleware *)

Module api.

Import Go.

(** Modelled from the spec: the declaration of [app.Account] that this
    package uses is not among the sources.  The fields are the ones the
    package reads: [Hash], [Handle] and the public key bytes in
    [Metadata.Key.Public] (section 3: the metadata holds the public key
    bytes). *)
Record Account : Type :=
  mkAccount { Hash : string; Handle : string; Metadata_Key_Public : string }.

(** [keyLoader]: lines 327-329. *)
Record keyLoader : Type := mkKeyLoader { acc : Account }.

(** One call of [db.Config.LoadAccount]: the [Key] list of its filter. *)
Definition store_call : Type := list string.

Record Request : Type :=
  mkRequest { Method : string; RequestURI : string;
              Header : gmap string (list string) }.

(** The parameters of a signature as the [Authorization] header
    declares them. *)
Record Params : Type :=
  mkParams { KeyId : string; Algorithm : string; Headers : list string;
             Signature : string }.

(** The collaborators of this package. *)
Class Collaborators : Type :=
  { PublicKey : Type;
    strings_ToLower : string -> string;
    url_Parse : string -> URL + error;
    path_Base : string -> string;
    LoadAccount : store_call -> Account * option error;
    ParsePKIXPublicKey : string -> PublicKey + error;
    getParamsFromAuthHeader : Request -> option Params;
    check_signature :
      PublicKey + error -> Params -> Request -> option error;
    Sprintf_q : string -> string;
    Sprintf_q_Header : gmap string (list string) -> string;
    HostName : string;
    AnonymousAccount : Account }.

(** [strings.Join]. *)
Fixpoint strings_Join (elems : list string) (sep : string) : string :=
  match elems with
  | [] => ""
  | [e] => e
  | e :: rest => e +:+ sep +:+ strings_Join rest sep
  end.

Section SignatureVerifier.

Context `{Collaborators}.

(** [GetKey]: lines 331-355.  The returned [interface{}] holds an
    error ([inr]) or the decoded public key ([inl]).  The state is
    the loader's [acc] field and the list of calls made to the
    account store. *)
Definition GetKey (id : string) (k : keyLoader) (calls : list store_call)
  : (PublicKey + error) * keyLoader * list store_call :=
  match url_Parse id with
  | inr err => (inr err, k, calls)
  | inl u =>
      if negb (bool_decide (Fragment u = "main-key")) then
        (inr (Errorf "invalid key"), k, calls)
      else
        let hash := path_Base (Path u) in
        let '(a, err) := LoadAccount [hash] in
        let k := {| acc := a |} in
        let calls := calls ++ [[hash]] in
        match err with
        | Some e => (inr e, k, calls)
        | None =>
            match ParsePKIXPublicKey (Metadata_Key_Public (acc k)) with
            | inr e => (inr e, k, calls)
            | inl pub => (inl pub, k, calls)
            end
        end
  end.

(** The headers given to [SetRequiredHeaders] (line 362). *)
Definition requiredHeaders : list string :=
  ["(request-target)"; "host"; "date"].

(** The headers a signature covers: the declared ones in lower case,
    and "date" alone when none is declared. *)
Definition covered (params : Params) : list string :=
  map strings_ToLower
      (if (length (Headers params) =? 0)%nat then ["date"]
       else Headers params).

(** The first required header that the signature does not cover. *)
Definition missing_header (required : list string) (params : Params)
  : option string :=
  List.find (fun h => negb (existsb (String.eqb h) (covered params)))
            required.

(** [Verify] belongs to the signature library, which is outside the
    repository; the model follows what sections 4.2 and 6 of the
    specification say of it.  The parameters are read from the
    request and must name a key, an algorithm and a signature; every
    required header must be among the covered headers; only then is
    the key resolved through the key loader and the signature checked
    with it.  Reading the parameters and the check of the signature
    itself are the collaborators [getParamsFromAuthHeader] and
    [check_signature]. *)
Definition Verify (required : list string) (r : Request)
           (k : keyLoader) (calls : list store_call)
  : option error * keyLoader * list store_call :=
  match getParamsFromAuthHeader r with
  | None => (Some (mkError Foreign "no params present"), k, calls)
  | Some params =>
      if bool_decide (KeyId params = "") then
        (Some (mkError Foreign "keyId is required"), k, calls)
      else if bool_decide (Algorithm params = "") then
        (Some (mkError Foreign "algorithm is required"), k, calls)
      else if (String.length (Signature params) =? 0)%nat then
        (Some (mkError Foreign "signature is required"), k, calls)
      else
        match missing_header required params with
        | Some h =>
            (Some (mkError Foreign
                     ("missing required header in signature " +:+ h)),
             k, calls)
        | None =>
            let '(key, k, calls) := GetKey (KeyId params) k calls in
            (check_signature key params r, k, calls)
        end
  end.

(** The challenge built at lines 364-375. *)
Definition challenge : string :=
  let realm := HostName in
  let challengeParams : list string := [] in
  let challengeParams :=
    if negb (bool_decide (realm = "")) then
      challengeParams ++ ["realm=" +:+ Sprintf_q realm]
    else challengeParams in
  let headers := requiredHeaders in
  let challengeParams :=
    if (0 <? length headers)%nat then
      challengeParams
        ++ ["headers=" +:+ Sprintf_q (strings_Join headers " ")]
    else challengeParams in
  let challenge := "Signature" in
  if (0 <? length challengeParams)%nat then
    challenge +:+ " " +:+ strings_Join challengeParams ", "
  else challenge.

(** What one run of the middleware's handler function has done when
    it returns: the headers it added to the response, the status it
    wrote (if any), the entries it logged, the account under which it
    passed the request to the next handler (if it did), and the state
    of the key loader and of the store. *)
Record served : Type :=
  mkServed { added : list (string * string);
             status : option nat;
             logged : list log.Entry;
             next : option Account;
             getter : keyLoader;
             store_calls : list store_call }.

(** The handler function of [VerifyHttpSignature]: lines 377-403. *)
Definition VerifyHttpSignature (r : Request) (k : keyLoader)
           (calls : list store_call) : served :=
  let acct := AnonymousAccount in
  match Header r !! "Authorization" with
  | Some _ =>
      let '(err, k, calls) := Verify requiredHeaders r k calls in
      match err with
      | Some _ =>
          {| added := [("WWW-Authenticate", challenge)];
             status := None;
             logged :=
               [log.mkEntry log.WarnLevel "invalid HTTP signature" []
                  [("handle", Handle acct); ("hash", Hash acct);
                   ("header", Sprintf_q_Header (Header r))]];
             next := Some acct;
             getter := k; store_calls := calls |}
      | None =>
          let acct := acc k in
          {| added := []; status := None;
             logged :=
               [log.mkEntry log.DebugLevel
                  "loaded account from HTTP signature header" []
                  [("handle", Handle acct); ("hash", Hash acct)]];
             next := Some acct;
             getter := k; store_calls := calls |}
      end
  | None =>
      {| added := []; status := None; logged := [];
         next := Some acct; getter := k; store_calls := calls |}
  end.

(** The response the claim asks for: status 401 written and the
    request not passed on. *)
Definition rejected_unauthorized (s : served) : Prop :=
  status s = Some 401%nat /\ next s = None.

End SignatureVerifier.

End api.

(** ** Sample data *)

Module fixtures.

Import Go.

Definition noTime : Time := mkTime 0 0 nil.

(** 2019-03-01 12:00:00 UTC, without a monotonic reading. *)
Definition march2019 : Time := mkTime 0 63687038400 nil.

(** An account with nothing but its hash. *)
Definition blank (h : app.HashT) : app.Account :=
  app.mkAccount h "" "" noTime nil noTime nil nil
                nil_slice nil_slice nil_slice nil_slice nil_slice
                nil nil_slice.

(** The account of alice as the session holds it ... *)
Definition alice_session : app.Account :=
  app.mkAccount "e33c4ff5" "" "alice" march2019 nil noTime nil nil
                (elems [app.mkVote (addr 1) (addr 40) 1 march2019])
                (elems ["0a1b2c3d"]) nil_slice (elems []) nil_slice
                nil nil_slice.

(** ... and as the store holds it. *)
Definition alice_stored : app.Account :=
  app.mkAccount "e33c4ff5" "alice@example.org" "Alice" noTime (addr 2)
                march2019 (addr 9) nil
                (elems [])
                (elems ["77770000"; "0a1b2c3d"]) (elems ["0a1b2c3d"])
                nil_slice nil_slice
                nil (elems [addr 5]).

Definition bob_stored : app.Account :=
  app.mkAccount "0a1b2c3d" "bob@example.org" "bob" march2019 nil
                march2019 (addr 3) nil
                nil_slice nil_slice nil_slice nil_slice nil_slice
                nil nil_slice.

(** Two records of alice that disagree on her e-mail address. *)
Definition alice_old_mail : app.Account :=
  app.set_Email "alice@old.example" (blank "e33c4ff5").

Definition alice_new_mail : app.Account :=
  app.set_Email "alice@new.example" (blank "e33c4ff5").

(** A record of alice that only knows her handle. *)
Definition alice_handle_only : app.Account :=
  app.set_Handle "alice" (blank "e33c4ff5").

(** *** Collaborators for [app] *)

Definition parse_sample (raw : string) : URL + error :=
  if decide (raw = "") then inl (mkURL "" "" "" "")
  else if decide (raw = "https://auth.example.org") then
    inl (mkURL "https" "auth.example.org" "" "")
  else if decide (raw = "/oauth") then inl (mkURL "" "" "/oauth" "")
  else inr (mkError Foreign "parse: invalid URL").

Definition metadata0 : app.AccountMetadata :=
  app.mkMetadata (app.mkOAuth "" "" "" None).

(** A node whose federation service knows the client and answers the
    password grant with [grant]. *)
Definition node (grant : option app.oauth2_Token * option error)
  : app.Collaborators :=
  {| app.Actor := string;
     app.strings_ToLower := fun s => s;
     app.url_Parse := parse_sample;
     app.os_TempDir := "/tmp";
     app.ActivityPubService :=
       fun c => app.mkRepository (app.BaseURL c) None;
     app.actors_IRI := fun base id => base +:+ "/actors/" +:+ id;
     app.fedbox_Actor := fun _ => (Some "littr", None);
     app.FromActivityPub :=
       fun actor hp =>
         (app.set_Metadata (addr 1)
                           (app.set_Handle actor (blank "5e1f0000")),
          <[1%N := metadata0]> hp);
     app.PasswordCredentialsToken := fun _ _ _ => grant;
     app.ViewInit := fun _ => (addr 7, None);
   app.Sprint_Config := fun c => app.ClientID c |}.

Definition env_with_client : gmap string string :=
  <["OAUTH2_KEY" := "littr-client"]>
    (<["OAUTH2_SECRET" := "s3cr3t"]>
       (<["API_URL" := "https://fedbox.example.org"]> ∅)).

Definition env_with_oauth_url : gmap string string :=
  <["OAUTH2_URL" := "https://auth.example.org"]> env_with_client.

Definition env_with_oauth_path : gmap string string :=
  <["OAUTH2_URL" := "/oauth"]> env_with_client.

Definition env_with_bad_oauth_url : gmap string string :=
  <["OAUTH2_URL" := "::"]> env_with_client.

Definition config0 : app.appConfig :=
  app.mkAppConfig true "https://littr.example.org" [] "" "" (addr 11).

Definition world0 : app.world := app.mkWorld ∅ [].

Definition token0 : app.oauth2_Token :=
  app.mkToken "a1b2c3d4e5" "Bearer" "r9".

(** *** Collaborators for [api] *)

Definition anonymous : api.Account := api.mkAccount "" "anonymous" "".

Definition keyed (raw : string) : URL + error :=
  if decide (raw = "https://littr.example.org/api/actors/e33c4ff5#main-key")
  then inl (mkURL "https" "littr.example.org" "/api/actors/e33c4ff5"
                  "main-key")
  else if decide (raw = "https://littr.example.org/api/actors/e33c4ff5#key-2")
  then inl (mkURL "https" "littr.example.org" "/api/actors/e33c4ff5"
                  "key-2")
  else inr (mkError Foreign "parse: invalid URL").

Definition signed_without_date : string :=
  "Signature keyId=https://littr.example.org/api/actors/e33c4ff5#main-key,algorithm=rsa-sha256,headers=(request-target) host,signature=c2ln".

Definition params_without_date : api.Params :=
  api.mkParams "https://littr.example.org/api/actors/e33c4ff5#main-key"
               "rsa-sha256" ["(request-target)"; "host"] "c2ln".

Definition peer : api.Collaborators :=
  {| api.PublicKey := string;
     api.strings_ToLower := fun s => s;
     api.url_Parse := keyed;
     api.path_Base := fun _ => "e33c4ff5";
     api.LoadAccount :=
       fun _ => (api.mkAccount "e33c4ff5" "alice" "3082010a", None);
     api.ParsePKIXPublicKey := fun der => inl der;
     api.getParamsFromAuthHeader :=
       fun r =>
         if decide (api.Header r !! "Authorization"
                    = Some [signed_without_date])
         then Some params_without_date else None;
     api.check_signature := fun _ _ _ => None;
     api.Sprintf_q := fun s => s;
     api.Sprintf_q_Header := fun _ => "map[]";
     api.HostName := "littr.example.org";
     api.AnonymousAccount := anonymous |}.

Definition request_without_date : api.Request :=
  api.mkRequest "POST" "/api/self/inbox"
                (<["Authorization" := [signed_without_date]]>
                   (<["Host" := ["littr.example.org"]]> ∅)).

Definition loader0 : api.keyLoader := api.mkKeyLoader anonymous.

End fixtures.

(** ** More sample data *)

Module samples.

Import Go.


Definition signed_with_date : string :=
  "Signature keyId=https://littr.example.org/api/actors/e33c4ff5#main-key,"
  +:+ "algorithm=rsa-sha256,headers=(request-target) host date,"
  +:+ "signature=c2ln".

Definition params_with_date : api.Params :=
  api.mkParams "https://littr.example.org/api/actors/e33c4ff5#main-key"
               "rsa-sha256" ["(request-target)"; "host"; "date"] "c2ln".

Definition alice_key_holder : api.Account :=
  api.mkAccount "e33c4ff5" "alice" "3082010a".

(** A peer whose signatures verify. *)
Definition peer_accepting : api.Collaborators :=
  {| api.PublicKey := string;
     api.strings_ToLower := fun s => s;
     api.url_Parse := fixtures.keyed;
     api.path_Base := fun _ => "e33c4ff5";
     api.LoadAccount := fun _ => (alice_key_holder, None);
     api.ParsePKIXPublicKey := fun der => inl der;
     api.getParamsFromAuthHeader :=
       fun r =>
         if decide (api.Header r !! "Authorization"
                    = Some [signed_with_date])
         then Some params_with_date else None;
     api.check_signature := fun _ _ _ => None;
     api.Sprintf_q := fun s => s;
     api.Sprintf_q_Header := fun _ => "map[]";
     api.HostName := "littr.example.org";
     api.AnonymousAccount := fixtures.anonymous |}.

Definition request_with_date : api.Request :=
  api.mkRequest "POST" "/api/self/inbox"
                (<["Authorization" := [signed_with_date]]>
                   (<["Host" := ["littr.example.org"]]> ∅)).

End samples.

(** ** Package [app]: the rest of [frontend.go] *)

Module handlers.

Import Go app.

(** The status codes of [net/http] that the file names. *)
Definition StatusFound : nat := 302.
Definition StatusBadRequest : nat := 400.
Definition StatusUnauthorized : nat := 401.
Definition StatusForbidden : nat := 403.
Definition StatusNotFound : nat := 404.
Definition StatusMethodNotAllowed : nat := 405.
Definition StatusInternalServerError : nat := 500.
Definition StatusNotImplemented : nat := 501.
Definition StatusGatewayTimeout : nat := 504.
Definition StatusHTTPVersionNotSupported : nat := 505.

(** A value stored in a session: an [Account], or a value of some other
    type. *)
Inductive session_value : Type :=
| AccountValue (a : Account)
| OtherValue (tag : N).

(** The session store of a view, for one request: whether sessions are
    enabled, the error [get] answers with (if any), the values of the
    request's session, and the error [Save] answers with (if any).  The
    session is an object shared by all [get] calls of the request, so a
    value assigned to it is seen by the next [get]. *)
Record sess : Type :=
  mkSess { enabled : bool;
           get_error : option error;
           Values : gmap string session_value;
           Save_error : option error }.

(** A view: its session store [s]; [infoFn] and [errFn] are determined
    by [view_logger], as for [handler]. *)
Record view : Type := mkView { s : sess; view_logger : pointer }.

(** The collaborators of the rest of the file: functions and values of
    the package that are declared elsewhere, and the libraries. *)
Class Collaborators : Type :=
  { IsBadRequest : error -> bool;
    IsForbidden : error -> bool;
    IsNotSupported : error -> bool;
    IsMethodNotAllowed : error -> bool;
    IsNotFound : error -> bool;
    IsNotImplemented : error -> bool;
    IsUnauthorized : error -> bool;
    IsTimeout : error -> bool;
    IsNotValid : error -> bool;
    AnonymousAccount : Account;
    SessionUserKey : string;
    IsLogged : Account -> bool;
    IsValid : Account -> bool;
    SessionsEnabled : appConfig -> bool;
    Env_IsDev : appConfig -> bool;
    Env_IsProd : appConfig -> bool;
    Secure : appConfig -> bool;
    SetCSP : gmap string (list string) -> gmap string (list string);
    Sprint_Values : gmap string session_value -> string;
    Sprint_Filters : string -> string;
    Sprintf_q : string -> string;
    Sprintf_format : string -> string;
    strings_ToLower : string -> string;
    Exchange :
      oauth2_Config -> string -> option oauth2_Token * option error;
    accounts : string -> slice Account * option error;
    loadAccountsFollowers : Account -> Account * option error;
    loadAccountsFollowing : Account -> Account * option error;
    loadAccountsBlockedIgnored : Account -> Account * option error;
    loadAccountVotes : pointer -> Account -> Account;
    loadAccountsOutbox : Account -> Account * option error }.

(** The zero value [Account{}]. *)
Definition zeroAccount : Account :=
  {| Hash := ""; Email := ""; Handle := "";
     CreatedAt := mkTime 0 0 nil; CreatedBy := nil;
     UpdatedAt := mkTime 0 0 nil; Metadata := nil; pub := nil;
     Votes := nil_slice; Followers := nil_slice; Following := nil_slice;
     Blocked := nil_slice; Ignored := nil_slice; Parent := nil;
     Children := nil_slice |}.

Section Handlers.

Context `{Collaborators}.

(** [var defaultAccount = AnonymousAccount] (line 35). *)
Definition defaultAccount : Account := AnonymousAccount.

(** [httpErrorResponse]: lines 489-518. *)
Definition httpErrorResponse (e : error) : nat :=
  if IsBadRequest e then StatusBadRequest
  else if IsForbidden e then StatusForbidden
  else if IsNotSupported e then StatusHTTPVersionNotSupported
  else if IsMethodNotAllowed e then StatusMethodNotAllowed
  else if IsNotFound e then StatusNotFound
  else if IsNotImplemented e then StatusNotImplemented
  else if IsUnauthorized e then StatusUnauthorized
  else if IsTimeout e then StatusGatewayTimeout
  else if IsNotValid e then StatusInternalServerError
  else StatusInternalServerError.

(** A call of [v.infoFn] or [v.errFn]. *)
Definition view_emit (v : view) (l : log.level) (msg : string)
           (c : list (string * string)) : list log.Entry :=
  if is_nil (view_logger v) then [] else [log.mkEntry l msg [] c].

(** [saveAccountToSession]: lines 277-287.  [w] and [r] are the response
    writer and the request, nil or not. *)
Definition saveAccountToSession (v : view) (w r : pointer) (a : Account)
  : option error * view :=
  if negb (enabled (s v)) || is_nil w || is_nil r then (None, v)
  else
    match get_error (s v) with
    | Some err => (Some err, v)
    | None =>
        let v :=
          {| s := {| enabled := enabled (s v);
                     get_error := get_error (s v);
                     Values :=
                       <[SessionUserKey := AccountValue a]> (Values (s v));
                     Save_error := Save_error (s v) |};
             view_logger := view_logger v |} in
        (Save_error (s v), v)
    end.

(** [loadCurrentAccountFromSession]: lines 289-311.  A type assertion
    with two results that fails leaves the zero value in [acc]. *)
Definition loadCurrentAccountFromSession (v : view) (w r : pointer)
  : Account * list log.Entry :=
  if negb (enabled (s v)) || is_nil w || is_nil r then (defaultAccount, [])
  else
    let acc := defaultAccount in
    match get_error (s v) with
    | Some _ => (defaultAccount, [])
    | None =>
        match Values (s v) !! SessionUserKey with
        | None =>
            (acc,
             view_emit v log.ErrorLevel "no account data saved to session"
                       [("sess", Sprint_Values (Values (s v)))])
        | Some (OtherValue _) =>
            (zeroAccount,
             view_emit v log.ErrorLevel "invalid account in session"
                       [("sess", Sprint_Values (Values (s v)))])
        | Some (AccountValue a) =>
            (a,
             view_emit v log.InfoLevel "loaded account from session"
                       [("handle", Handle a); ("hash", Hash a)])
        end
    end.

(** [SetSecurityHeaders]: lines 313-326, as the response headers with
    which the next handler is served, given the headers so far.
    [Header.Set] replaces the values of a key; the five keys are in
    canonical form already. *)
Definition SetSecurityHeaders (h : handler)
           (hdr : gmap string (list string)) : gmap string (list string) :=
  let hdr :=
    if negb (Env_IsDev (conf h)) && Secure (conf h) then
      <["Strict-Transport-Security" :=
          ["max-age=63072000; includeSubDomains; preload"]]> hdr
    else hdr in
  let hdr := SetCSP hdr in
  let hdr := <["X-Frame-Options" := ["DENY"]]> hdr in
  let hdr := <["X-Xss-Protection" := ["1; mode=block"]]> hdr in
  let hdr := <["Referrer-Policy" := ["same-origin"]]> hdr in
  let hdr := <["X-Content-Type-Options" := ["nosniff"]]> hdr in
  hdr.

(** The key of line 553: 0x1, thirty times 0x0, 0x1. *)
Definition fallback_authKey : string :=
  String "001"%char (strings_Repeat (String "000"%char "") 30)
  +:+ String "001"%char "".

(** [CSRF]: lines 538-556, as what is handed to [csrf.Protect]: the
    authentication key and the [Secure] option. *)
Definition CSRF (h : handler) (w : world) : string * bool * world :=
  let secure := Env_IsProd (conf h) in
  match SessionKeys (conf h) with
  | key0 :: _ => (key0, secure, w)
  | [] =>
      let w :=
        if Env_IsProd (conf h)
        then emit h log.ErrorLevel "Invalid CSRF auth key" [] [] w
        else w in
      (fallback_authKey, secure, w)
  end.

(** [errors.NotFoundf] and [errors.Forbiddenf] with the message already
    formatted. *)
Definition NotFoundf (m : string) : error := mkError NotFound m.
Definition Forbiddenf (m : string) : error := mkError Forbidden m.

(** The handler that a middleware wraps: its argument [next]. *)
Inductive http_Handler : Type := next.

(** What a middleware or a handler does to its surroundings, in order.
    [ctxtErr n w r e] is the call [ctxtErr(next, w, r, err)] of a
    function of the package that is declared elsewhere: it is handed the
    next handler, the writer and the request, so whatever it does with
    them, serving the request included, happens at that point of the
    trace and is not spelled out in it. *)
Inductive event : Type :=
| WithAccount_nil
| WithAccount_acc
| ctxtErr (n : http_Handler) (w r : pointer) (e : error)
| clearSessionCookie
| next_ServeHTTP (a : option Account)
| HandleErrors (errs : list error)
| exchanged (code : string)
| addFlashMessage (msg : string)
| Redirect (url : string) (status : nat).

(** Entries emitted through the view's log functions. *)
Definition record (entries : list log.Entry) (wd : world) : world :=
  {| heap := heap wd; emitted := emitted wd ++ entries |}.

(** [h.infoFn(ltx)("Error: %s", err)] when [err] is not nil. *)
Definition report (h : handler) (ltx : list (string * string))
           (err : option error) (wd : world) : world :=
  match err with
  | Some e => emit h log.InfoLevel "Error: %s" [message e] ltx wd
  | None => wd
  end.

(** [LoadSession]: lines 376-460.  [hv] is the view [h.v], [None] when
    nil.  [next_ServeHTTP (Some acc)] is the call of the next handler
    with [acc] under [LoggedAccountCtxtKey]; [next_ServeHTTP None] stands
    for the next handler used as it is, when sessions are disabled.
    [WithAccount_acc] hands the address of the local [acc] to the
    storage, so the storage sees the account as it is at the end. *)
Definition LoadSession (h : handler) (hv : option view) (w r : pointer)
           (wd : world)
  : result (list event * Account * option view * world) :=
  if negb (SessionsEnabled (conf h)) then
    Done ([next_ServeHTTP None], AnonymousAccount, hv, wd)
  else
    let ev := [WithAccount_nil] in
    let '(acc, wd) :=
      match hv with
      | Some v =>
          let '(a, entries) := loadCurrentAccountFromSession v w r in
          (a, record entries wd)
      | None => (AnonymousAccount, wd)
      end in
    st <- (if IsLogged acc then
             let ltx := [("handle", Handle acc); ("hash", Hash acc)] in
             let '(found, err) := accounts (Handle acc) in
             st <- match err with
                   | Some e => Done (acc, ev ++ [ctxtErr next w r e], wd)
                   | None =>
                       let wd :=
                         if (len found =? 0)%nat then
                           report h ltx
                             (Some (NotFoundf
                                      ("no accounts found for "
                                       +:+ Sprint_Filters (Handle acc))))
                             wd
                         else wd in
                       match found with
                       | elems (a0 :: _) =>
                           let ev :=
                             if negb (IsValid a0)
                             then ev ++ [ctxtErr next w r
                                                 (NotFoundf "Not found")]
                             else ev in
                           Done (loadAccountData acc a0, ev, wd)
                       | _ => Panic "index out of range"
                       end
                   end ;;
             let '(acc, ev, wd) := st in
             let ev := ev ++ [WithAccount_acc] in
             let '(acc, wd) :=
               if (len (Followers acc) =? 0)%nat then
                 let '(a, err) := loadAccountsFollowers acc in
                 (a, report h ltx err wd)
               else (acc, wd) in
             let '(acc, wd) :=
               if (len (Following acc) =? 0)%nat then
                 let '(a, err) := loadAccountsFollowing acc in
                 (a, report h ltx err wd)
               else (acc, wd) in
             let '(acc, wd) :=
               if (len (Blocked acc) =? 0)%nat
                  || (len (Ignored acc) =? 0)%nat then
                 let '(a, err) := loadAccountsBlockedIgnored acc in
                 (a, report h ltx err wd)
               else (acc, wd) in
             let '(acc, wd) :=
               if (len (Votes acc) =? 0)%nat then
                 let acc := loadAccountVotes r acc in
                 let '(a, err) := loadAccountsOutbox acc in
                 (a, report h ltx err wd)
               else (acc, wd) in
             Done (acc, ev, wd)
           else Done (acc, ev, wd)) ;;
    let '(acc, ev, wd) := st in
    match hv with
    | None =>
        Done (ev ++ [clearSessionCookie; next_ServeHTTP (Some acc)],
              acc, None, wd)
    | Some v =>
        let '(err, v) := saveAccountToSession v w r acc in
        let wd :=
          match err with
          | Some e =>
              emit h log.ErrorLevel "unable to save account to session" []
                   [("err", message e); ("handle", Handle acc);
                    ("hash", Hash acc)] wd
          | None => wd
          end in
        Done (ev ++ [next_ServeHTTP (Some acc)], acc, Some v, wd)
    end.

(** [url.Values.Get]: the first value of the key, or the empty
    string. *)
Definition Values_Get (q : gmap string (list string)) (key : string)
  : string :=
  match q !! key with
  | Some (x :: _) => x
  | _ => ""
  end.

Definition newline : string := String "010"%char "".

Section Callback.

Context {A : app.Collaborators}.
Variable env : gmap string string.

(** [HandleCallback]: lines 157-206.  [provider] is the URL parameter,
    [q] the query of the request, [v] the view [h.v]. *)
Definition HandleCallback (h : handler) (v : view) (w r : pointer)
           (provider : string) (q : gmap string (list string))
           (wd : world)
  : result (list event * view * world) :=
  match q !! "error" with
  | Some _ =>
      let errDescriptions := default [] (q !! "error_description") in
      let errs :=
        [Errorf ("Error for provider " +:+ Sprintf_q provider +:+ ":"
                 +:+ newline)] in
      let errs :=
        errs ++ map (fun errDesc => Errorf (Sprintf_format errDesc))
                    errDescriptions in
      Done ([HandleErrors errs], v, wd)
  | None =>
      let code := Values_Get q "code" in
      let state := Values_Get q "state" in
      if (String.length code =? 0)%nat then
        Done ([HandleErrors
                 [Forbiddenf (provider
                              +:+ " error: Empty authentication token")]],
              v, wd)
      else
        let conf0 := GetOauth2Config env provider (BaseURL (conf h)) in
        let '(tok, err) := Exchange conf0 code in
        let ev := [exchanged code] in
        match err with
        | Some e =>
            let wd :=
              emit h log.ErrorLevel "Unable to load token" []
                   [("err", message e)] wd in
            Done (ev ++ [HandleErrors [e]], v, wd)
        | None =>
            let '(account, entries) :=
              loadCurrentAccountFromSession v w r in
            let wd := record entries wd in
            wd <- assign_OAuth (Metadata account)
                    (fun _ => mkOAuth state code provider tok) wd ;;
            let '(serr, v) := saveAccountToSession v w r account in
            let '(ev, wd) :=
              match serr with
              | None =>
                  if negb (bool_decide (strings_ToLower provider = "local"))
                  then (ev ++ [addFlashMessage
                                 ("Login successful with " +:+ provider)],
                        wd)
                  else (ev ++ [addFlashMessage "Login successful"], wd)
              | Some _ =>
                  (ev,
                   emit h log.ErrorLevel
                        "Unable to save account to session" [] [] wd)
              end in
            Done (ev ++ [Redirect "/" StatusFound], v, wd)
        end
  end.

End Callback.

End Handlers.

End handlers.

(** ** Sample data for the front end *)

Module samples_frontend.

Import Go.

(** A front end over a storage that answers every account query with
    [found]. *)
Definition frontend_with (found : slice app.Account * option error)
  : handlers.Collaborators :=
  {| handlers.IsBadRequest := fun _ => false;
     handlers.IsForbidden :=
       fun e => match kind e with Forbidden => true | _ => false end;
     handlers.IsNotSupported := fun _ => false;
     handlers.IsMethodNotAllowed := fun _ => false;
     handlers.IsNotFound :=
       fun e => match kind e with NotFound => true | _ => false end;
     handlers.IsNotImplemented := fun _ => false;
     handlers.IsUnauthorized :=
       fun e => match kind e with Unauthorized => true | _ => false end;
     handlers.IsTimeout := fun _ => false;
     handlers.IsNotValid := fun _ => false;
     handlers.AnonymousAccount :=
       app.set_Handle "anonymous" (fixtures.blank "eacff9dd");
     handlers.SessionUserKey := "__current_acct";
     handlers.IsLogged :=
       fun a => negb (bool_decide (app.Handle a = "anonymous"))
                && negb (bool_decide (app.Handle a = ""));
     handlers.IsValid := fun a => negb (bool_decide (app.Hash a = ""));
     handlers.SessionsEnabled := fun _ => true;
     handlers.Env_IsDev := fun _ => false;
     handlers.Env_IsProd := fun _ => true;
     handlers.Secure := fun _ => true;
     handlers.SetCSP := fun hdr => hdr;
     handlers.Sprint_Values := fun _ => "map[]";
     handlers.Sprint_Filters := fun name => name;
     handlers.Sprintf_q := fun p => p;
     handlers.Sprintf_format := fun f => f;
     handlers.strings_ToLower := fun p => p;
     handlers.Exchange := fun _ _ => (Some fixtures.token0, None);
     handlers.accounts := fun _ => found;
     handlers.loadAccountsFollowers := fun a => (a, None);
     handlers.loadAccountsFollowing := fun a => (a, None);
     handlers.loadAccountsBlockedIgnored := fun a => (a, None);
     handlers.loadAccountVotes := fun _ a => a;
     handlers.loadAccountsOutbox := fun a => (a, None) |}.

(** The session of carol, who voted and has a follower ... *)
Definition carol_session : app.Account :=
  app.set_Votes
    (elems [app.mkVote (addr 3) (addr 41) 1 fixtures.march2019])
    (app.set_Followers
       (elems ["e33c4ff5"])
       (app.set_Handle "carol" (fixtures.blank "c0ffee00"))).

(** ... and her stored account, which knows whom she follows, blocks
    and ignores, and where her metadata are. *)
Definition carol_stored : app.Account :=
  app.set_Metadata
    (addr 9)
    (app.set_Following
       (elems ["e33c4ff5"; "0a1b2c3d"])
       (app.set_Blocked
          (elems ["77770000"])
          (app.set_Ignored
             (elems ["0a1b2c3d"])
             (app.set_Email "carol@example.org"
                            (app.set_Handle "carol"
                                            (fixtures.blank "c0ffee00")))))).

Definition frontend_node : handlers.Collaborators :=
  frontend_with (elems [carol_stored], None).

Definition frontend_without_accounts : handlers.Collaborators :=
  frontend_with (elems [], None).

(** A view over a working session store that holds [val]. *)
Definition view_of (val : handlers.session_value) : handlers.view :=
  handlers.mkView
    (handlers.mkSess true None (<["__current_acct" := val]> ∅) None)
    (addr 11).

(** A session that holds something that is not an account. *)
Definition view_with_garbage : handlers.view :=
  view_of (handlers.OtherValue 7).

Definition handler0 : app.handler :=
  app.mkHandler fixtures.config0 (addr 7)
                (app.mkRepository "https://littr.example.org" None)
                (addr 11).

Definition world9 : app.world :=
  app.mkWorld (<[9%N := fixtures.metadata0]> ∅) [].

Definition query_with_code : gmap string (list string) :=
  <["code" := ["c0de"]]> (<["state" := ["5tate"]]> ∅).

Definition query_with_error : gmap string (list string) :=
  <["error" := ["access_denied"]]>
    (<["error_description" := ["The user said no"; "Try again"]]>
       (<["code" := ["c0de"]]> ∅)).

(** A storage that is down, and a session store that cannot save. *)
Definition storage_down : error := mkError Foreign "connection refused".

Definition frontend_storage_down : handlers.Collaborators :=
  frontend_with (nil_slice, Some storage_down).

Definition disk_full : error := mkError Foreign "no space left on device".

Definition view_unable_to_save : handlers.view :=
  handlers.mkView
    (handlers.mkSess true None
                     (<["__flashes" := handlers.OtherValue 1]> ∅)
                     (Some disk_full))
    (addr 11).

End samples_frontend.

From Stdlib Require Import DecimalString.

(** ** Content items: the methods of [Content] *)

Module content.

Import Go.

Definition MimeTypeURL : string := "application/url".

(** A [[]byte]: nil, or the bytes up to its length and the bytes of its
    backing array between length and capacity. *)
Inductive bytes : Type :=
| nil_bytes
| mk_bytes (contents spare : string).

Definition is_nil_bytes (b : bytes) : bool :=
  match b with nil_bytes => true | mk_bytes _ _ => false end.

(** [string(b)] and [len(b)]. *)
Definition str (b : bytes) : string :=
  match b with nil_bytes => "" | mk_bytes c _ => c end.

Definition blen (b : bytes) : nat := String.length (str b).

Definition bcap (b : bytes) : nat :=
  match b with
  | nil_bytes => 0
  | mk_bytes c sp => String.length c + String.length sp
  end.

Definition bounds_out_of_range : string := "slice bounds out of range".
Definition index_out_of_range : string := "index out of range".

(** [string(b[0:n])]: a slice may be extended up to its capacity. *)
Definition prefix (b : bytes) (n : nat) : result string :=
  if (n <=? bcap b)%nat then
    match b with
    | nil_bytes => Done ""
    | mk_bytes c sp => Done (slice_to (c +:+ sp) n)
    end
  else Panic bounds_out_of_range.

Definition zeros (n : nat) : string :=
  strings_Repeat (String "000"%char "") n.

(** The collaborators: the calendar of package [time], and the capacity
    the runtime picks when [append] has to grow a slice of capacity
    [old] to hold [needed] bytes. *)
Class Collaborators : Type :=
  { Date : Time -> Z * Z * Z;
    growslice : nat -> nat -> nat }.

(** [Content]: lines 27-43. *)
Record Content : Type :=
  mkContent {
    id : Z;
    Key : bytes;
    Title : bytes;
    MimeType : string;
    Data : bytes;
    Score : Z;
    SubmittedAt : Time;
    submittedBy : Z;
    UpdatedAt : Time;
    Handle : string;
    flags : Z;
    Metadata : bytes;
    Path : bytes;
    fullPath : bytes;
    parentLink : string }.

Definition set_fullPath (v : bytes) (c : Content) : Content :=
  {| id := id c; Key := Key c; Title := Title c; MimeType := MimeType c;
     Data := Data c; Score := Score c; SubmittedAt := SubmittedAt c;
     submittedBy := submittedBy c; UpdatedAt := UpdatedAt c;
     Handle := Handle c; flags := flags c; Metadata := Metadata c;
     Path := Path c; fullPath := v; parentLink := parentLink c |}.

(** The decimal digits of a natural number. *)
Definition digits (n : N) : string :=
  NilZero.string_of_uint (N.to_uint n).

(** The verb [%d] with a width, padded with blanks ([%4d]) or with
    zeros after the sign ([%02d]). *)
Definition fmt_d (width : nat) (zero : bool) (n : Z) : string :=
  let ds := digits (Z.abs_N n) in
  let sign := if (n <? 0)%Z then "-" else "" in
  let pad := width - (String.length sign + String.length ds) in
  if zero then sign +:+ strings_Repeat "0" pad +:+ ds
  else strings_Repeat " " pad +:+ sign +:+ ds.

(** [strings.Split(s, sep)] for a separator of one byte. *)
Fixpoint split_at (sep : ascii) (s : string) : list string :=
  match s with
  | EmptyString => [""]
  | String c rest =>
      if Ascii.eqb c sep then "" :: split_at sep rest
      else
        match split_at sep rest with
        | first :: others => String c first :: others
        | [] => [String c ""]
        end
  end.

(** [bytes.Count(s, sep)] for a separator of one byte. *)
Fixpoint count_byte (sep : ascii) (s : string) : nat :=
  match s with
  | EmptyString => 0
  | String c rest =>
      (if Ascii.eqb c sep then 1 else 0) + count_byte sep rest
  end.

Section Methods.

Context `{Collaborators}.

(** [append(b, src...)]. *)
Definition append (b : bytes) (src : string) : bytes :=
  if (String.length src =? 0)%nat then b
  else
    match b with
    | nil_bytes =>
        mk_bytes src
                 (zeros (growslice 0 (String.length src)
                         - String.length src))
    | mk_bytes c sp =>
        if (String.length src <=? String.length sp)%nat then
          mk_bytes (c +:+ src) (slice_from sp (String.length src))
        else
          mk_bytes (c +:+ src)
                   (zeros (growslice (bcap b)
                                     (String.length c + String.length src)
                           - (String.length c + String.length src)))
    end.

(** The path [/YYYY/MM/DD/hash] of lines 67 and 97. *)
Definition dated (t : Time) (hash : string) : string :=
  let '(year, month, day) := Date t in
  "/" +:+ fmt_d 4 false year +:+ "/" +:+ fmt_d 2 true month
  +:+ "/" +:+ fmt_d 2 true day +:+ "/" +:+ hash.

(** [scoreLink]: lines 63-68. *)
Definition scoreLink (c : Content) (dir : string) : result string :=
  if IsZero (SubmittedAt c) then Done ""
  else
    hash <- prefix (Key c) 8 ;;
    Done (dated (SubmittedAt c) hash +:+ "?" +:+ dir).

Definition ScoreUPLink (c : Content) : result string := scoreLink c "yay".
Definition ScoreDOWNLink (c : Content) : result string := scoreLink c "nay".

(** [IsTop]: lines 75-77. *)
Definition IsTop (c : Content) : bool := is_nil_bytes (Path c).

(** [Hash8] to [Hash64] and [Hash]: lines 78-92. *)
Definition Hash8 (c : Content) : result string := prefix (Key c) 8.
Definition Hash16 (c : Content) : result string := prefix (Key c) 16.
Definition Hash32 (c : Content) : result string := prefix (Key c) 32.
Definition Hash64 (c : Content) : string := str (Key c).
Definition Hash (c : Content) : result string := Hash8 c.

(** [PermaLink]: lines 93-98. *)
Definition PermaLink (c : Content) : result string :=
  if IsZero (SubmittedAt c) then Done ""
  else
    hash <- prefix (Key c) 8 ;;
    Done (dated (SubmittedAt c) hash).

(** [FullPath]: lines 99-108.  The receiver is a pointer: the result
    comes with the content as the call leaves it. *)
Definition FullPath (c : Content) : bytes * Content :=
  if is_nil_bytes (fullPath c) then
    let fp := append (fullPath c) (str (Path c)) in
    let fp := if (0 <? blen fp)%nat then append fp "." else fp in
    let fp := append fp (str (Key c)) in
    (fp, set_fullPath fp c)
  else (fullPath c, c).

(** [Level]: lines 109-114.  The receiver is a value: [FullPath] works
    on a copy. *)
Definition Level (c : Content) : nat :=
  if is_nil_bytes (Path c) then 0
  else count_byte "."%char (str (fst (FullPath c))).

(** [IsLink]: lines 119-121. *)
Definition IsLink (c : Content) : bool :=
  bool_decide (MimeType c = MimeTypeURL).

(** [GetDomain]: lines 149-154. *)
Definition GetDomain (c : Content) : result string :=
  if negb (IsLink c) then Done ""
  else
    match split_at "/"%char (str (Data c)) with
    | _ :: _ :: domain :: _ => Done domain
    | _ => Panic index_out_of_range
    end.

End Methods.

End content.

(** ** Sample content *)

Module samples_content.

Import Go content.

Definition calendar : Collaborators :=
  {| Date := fun _ => (2019, 3, 1)%Z;
     growslice := fun _ needed => needed |}.

Definition key64 : string :=
  "9f86d081884c7d659a2feaa0c55ad015"
  +:+ "a3bf4f1b2b0b822cd15d6c15b0f00a08".

(** A link submitted on the first of March 2019 ... *)
Definition link_item : Content :=
  mkContent 1 (mk_bytes key64 "") (mk_bytes "A story" "") MimeTypeURL
            (mk_bytes "https://example.org/story/1" "") 30000
            fixtures.march2019 7 fixtures.march2019 "alice" 0
            nil_bytes nil_bytes nil_bytes "".

(** ... and a reply two levels below it. *)
Definition reply_item : Content :=
  mkContent 2 (mk_bytes key64 "") nil_bytes "text/plain"
            (mk_bytes "I agree" "") 0
            fixtures.march2019 8 fixtures.march2019 "bob" 0
            nil_bytes (mk_bytes "9f86d081.0a1b2c3d" "") nil_bytes "".

End samples_content.

(** ** Package [api]: the error response *)

Module api_errors.

Import Go.

(** The errors [HandleError] tells apart by their dynamic type. *)
Inductive api_error : Type :=
| UnmarshalTypeError (Value Type_ : string)
| InvalidUnmarshalError (Type_ : string)
| Err (text : string) (StackTrace : list string)
| other_error (text : string).

(** The two local types of [HandleError]: lines 280-288. *)
Record error_entry : Type :=
  mkEntry { Code : Z; Message : string; Trace : list string }.

Record eresp : Type := mkEresp { Status : nat; Errors : list error_entry }.

(** The response writer: its headers, the status written and the body
    written, if any. *)
Record response : Type :=
  mkResponse { header : gmap string (list string);
               written_status : option nat;
               body : option string }.

(** How a call ends: it returns, or it panics on the way; either way
    with the response as it stands and the lines given to the logger. *)
Inductive outcome : Type :=
| returned (w : response) (logged : list string)
| panicked (w : response) (logged : list string).

(** The collaborators: the [Error] method of the errors, [json.Marshal]
    and whether the instance runs in the DEV environment. *)
Class Collaborators : Type :=
  { Error_text : api_error -> string;
    Marshal : eresp -> string;
    Env_is_DEV : bool }.

Section ErrorResponse.

Context `{Collaborators}.

(** The body of the loop of lines 295-321, for an error that is not
    nil. *)
Definition entry_of (e : api_error) : error_entry :=
  match e with
  | UnmarshalTypeError v t =>
      mkEntry 0 ("UnmarshalTypeError: Value[" +:+ v +:+ "] Type[" +:+ t
                 +:+ "]" +:+ String "010"%char "") []
  | InvalidUnmarshalError t =>
      mkEntry 0 ("InvalidUnmarshalError: Type[" +:+ t +:+ "]"
                 +:+ String "010"%char "") []
  | Err _ stack =>
      mkEntry 0 (Error_text e) (if Env_is_DEV then stack else [])
  | other_error text => mkEntry 0 (Error_text e) []
  end.

(** The loop of lines 295-321; [None] is a nil error, on which
    [err.Error()] panics. *)
Fixpoint collect (errs : list (option api_error))
         (entries : list error_entry) (logged : list string)
  : list error_entry * list string * bool :=
  match errs with
  | [] => (entries, logged, false)
  | None :: _ => (entries, logged, true)
  | Some e :: rest =>
      collect rest (entries ++ [entry_of e]) (logged ++ [Error_text e])
  end.

(** [HandleError]: lines 273-325. *)
Definition HandleError (w : response) (code : nat)
           (errs : list (option api_error)) : outcome :=
  let hdr := header w in
  let hdr := <["Content-Type" := ["application/json; charset=utf-8"]]> hdr in
  let hdr := <["Cache-Control" := ["no-store, must-revalidate"]]> hdr in
  let hdr := <["Pragma" := ["no-cache"]]> hdr in
  let hdr := <["Expires" := ["0"]]> hdr in
  let w := {| header := hdr; written_status := Some code; body := body w |} in
  let '(entries, logged, nil_error) := collect errs [] [] in
  if nil_error then panicked w logged
  else
    let res := {| Status := code; Errors := entries |} in
    returned {| header := header w; written_status := written_status w;
                body := Some (Marshal res) |} logged.

End ErrorResponse.

End api_errors.

(** ** The bootstrap command: connecting to the database *)

Module bootstrap.

Import Go.

(** What one [db.Ping] answers: nil, a network error
    ([*net.OpError]), or another error. *)
Inductive ping_result : Type :=
| ping_ok
| ping_net_error
| ping_other_error (e : error).

(** How [dbConnection] ends, with what it printed and how often it
    slept for 100 ms: it returns the handle and a nil error; it returns
    the handle and the nil [*net.OpError] that the failed type assertion
    left in [t]; it returns the error of [sql.Open]; the process exits;
    or it is still pinging when the fuel of the model runs out. *)
Inductive connection : Type :=
| connected (printed : list string) (sleeps : nat)
| failed_with_nil_OpError (printed : list string) (sleeps : nat)
| open_failed (e : error)
| exited
| still_pinging.

(** The collaborators: [cmd.E], [sql.Open] on a connection string, and
    the answer of the n-th ping, counted from 0. *)
Class Collaborators : Type :=
  { cmd_E : error -> bool;
    sql_Open : string -> option error;
    Ping : nat -> ping_result }.

Section Connection.

Context `{Collaborators}.

(** The connection string of lines 27-31. *)
Definition connStr (dbHost dbUser dbPw dbName : string) : string :=
  let pw := if negb (bool_decide (dbPw = ""))
            then " password=" +:+ dbPw else "" in
  "host=" +:+ dbHost +:+ " user=" +:+ dbUser +:+ pw
  +:+ " dbname=" +:+ dbName +:+ " sslmode=disable".

(** The loop of lines 36-56; [cnt] counts the failed pings so far. *)
Fixpoint ping_loop (fuel cnt : nat) (printed : list string) : connection :=
  match fuel with
  | O => still_pinging
  | S fuel =>
      match Ping cnt with
      | ping_ok =>
          connected
            (if (0 <? cnt)%nat then printed ++ [String "010"%char ""]
             else printed)
            cnt
      | ping_net_error =>
          let cnt := S cnt in
          let printed :=
            if (cnt mod 10 =? 0)%nat then printed ++ ["."] else printed in
          let printed :=
            if (cnt =? 720 - 22)%nat || (cnt mod 720 =? 0)%nat
            then printed ++ [String "010"%char ""] else printed in
          ping_loop fuel cnt printed
      | ping_other_error _ => failed_with_nil_OpError printed cnt
      end
  end.

(** [dbConnection]: lines 19-59. *)
Definition dbConnection (fuel : nat) (dbHost dbUser dbPw dbName : string)
  : connection :=
  if bool_decide (dbUser = "") && bool_decide (dbPw = "")
     && negb (cmd_E (mkError Forbidden "missing user and/or pw"))
  then exited
  else
    match sql_Open (connStr dbHost dbUser dbPw dbName) with
    | None => ping_loop fuel 0 []
    | Some err => open_failed err
    end.

End Connection.

(** The number of dots among the strings printed. *)
Definition dots (printed : list string) : nat :=
  count_occ string_dec printed ".".

End bootstrap.

(** ** Sample data for the API response and the bootstrap command *)

Module samples_tools.

Import Go.

Definition production : api_errors.Collaborators :=
  {| api_errors.Error_text :=
       fun e =>
         match e with
         | api_errors.UnmarshalTypeError v t =>
             "json: cannot unmarshal " +:+ v +:+ " into " +:+ t
         | api_errors.InvalidUnmarshalError t =>
             "json: Unmarshal(" +:+ t +:+ ")"
         | api_errors.Err text _ => text
         | api_errors.other_error text => text
         end;
     api_errors.Marshal :=
       fun res =>
         strings_Repeat "E" (length (api_errors.Errors res));
     api_errors.Env_is_DEV := false |}.

Definition response0 : api_errors.response :=
  api_errors.mkResponse ∅ None None.

(** A database that answers the 26th ping. *)
Definition slow_database : bootstrap.Collaborators :=
  {| bootstrap.cmd_E := fun _ => false;
     bootstrap.sql_Open := fun _ => None;
     bootstrap.Ping :=
       fun n => if (n <? 25)%nat then bootstrap.ping_net_error
                else bootstrap.ping_ok |}.

End samples_tools.

(** ** Floating point: package [math], conversions and the verb [%f] *)

From Stdlib Require Floats.

Module math.

Import PrimFloat FloatOps SpecFloat.
Local Open Scope float_scope.
















End math.

(** ** The score of an item *)

Module score.

Import Go content.
Import PrimFloat FloatOps SpecFloat.





End score.

(** ** Sample scores *)

Module samples_score.


End samples_score.

(** * Results *)

(** ** Masking *)

Lemma star_first_repeat (k : nat) (s : string) :
  k <= String.length s ->
  Go.strings_Repeat "*" k +:+ Go.slice_from s k = app.star_first k s.
Proof.
  revert s; induction k as [|k IH]; intros s Hk;
    [destruct s; reflexivity|].
  destruct s as [|c r]; simpl in Hk; [lia|].
  change (String "*"%char (Go.strings_Repeat "*" k +:+ Go.slice_from r k)
          = String "*"%char (app.star_first k r)).
  f_equal. apply IH. lia.
Qed.

(** C8. Masking: a string of at most three bytes is rendered as three
    stars; a longer one keeps its last three bytes and has every earlier
    byte replaced by a star.  In particular "abcd" gives "*bcd" and "ab"
    gives "***". *)
Theorem hideString_masks :
  (forall s : string,
      app.hideString s =
      if (String.length s <=? 3)%nat then "***"
      else app.mask_all_but_last3 s)
  /\ app.hideString "abcd" = "*bcd"
  /\ app.hideString "ab" = "***".
Proof.
  split; [|split; reflexivity].
  intros s. unfold app.hideString, app.mask_all_but_last3.
  destruct (String.length s <=? 3)%nat eqn:E; [reflexivity|].
  apply star_first_repeat. apply Nat.leb_gt in E. lia.
Qed.

(** ** Account reconciliation *)

Section Reconciler.

Import Go app.

(** Each conditional assignment writes one field. *)
Lemma fill_Email_eq b a :
  fill_Email b a = set_Email (gap_string (Email a) (Email b)) a.
Proof.
  unfold fill_Email, gap_string. destruct a; simpl.
  destruct (_ && _); reflexivity.
Qed.

Lemma fill_Handle_eq b a :
  fill_Handle b a = set_Handle (gap_string (Handle a) (Handle b)) a.
Proof.
  unfold fill_Handle, gap_string. destruct a; simpl.
  destruct (_ && _); reflexivity.
Qed.

Lemma fill_CreatedAt_eq b a :
  fill_CreatedAt b a
  = set_CreatedAt (gap_time (CreatedAt a) (CreatedAt b)) a.
Proof.
  unfold fill_CreatedAt, gap_time. destruct a; simpl.
  destruct (_ && _); reflexivity.
Qed.

Lemma fill_CreatedBy_eq b a :
  fill_CreatedBy b a
  = set_CreatedBy (gap_pointer (CreatedBy a) (CreatedBy b)) a.
Proof.
  unfold fill_CreatedBy, gap_pointer. destruct a; simpl.
  destruct (_ && _); reflexivity.
Qed.

Lemma fill_UpdatedAt_eq b a :
  fill_UpdatedAt b a
  = set_UpdatedAt (gap_time (UpdatedAt a) (UpdatedAt b)) a.
Proof.
  unfold fill_UpdatedAt, gap_time. destruct a; simpl.
  destruct (_ && _); reflexivity.
Qed.

Lemma fill_Metadata_eq b a :
  fill_Metadata b a
  = set_Metadata (gap_pointer (Metadata a) (Metadata b)) a.
Proof.
  unfold fill_Metadata, gap_pointer. destruct a; simpl.
  destruct (_ && _); reflexivity.
Qed.

Lemma fill_pub_eq b a :
  fill_pub b a = set_pub (gap_pointer (pub a) (pub b)) a.
Proof.
  unfold fill_pub, gap_pointer. destruct a; simpl.
  destruct (_ && _); reflexivity.
Qed.

Lemma fill_Votes_eq b a :
  fill_Votes b a = set_Votes (gap_slice (Votes a) (Votes b)) a.
Proof.
  unfold fill_Votes, gap_slice. destruct a; simpl.
  destruct (_ && _); reflexivity.
Qed.

Lemma fill_Followers_eq b a :
  fill_Followers b a
  = set_Followers (gap_slice (Followers a) (Followers b)) a.
Proof.
  unfold fill_Followers, gap_slice. destruct a; simpl.
  destruct (_ && _); reflexivity.
Qed.

Lemma fill_Following_eq b a :
  fill_Following b a
  = set_Following (gap_slice (Following a) (Following b)) a.
Proof.
  unfold fill_Following, gap_slice. destruct a; simpl.
  destruct (_ && _); reflexivity.
Qed.

Lemma fill_Blocked_eq b a :
  fill_Blocked b a = set_Blocked (gap_slice (Blocked a) (Blocked b)) a.
Proof.
  unfold fill_Blocked, gap_slice. destruct a; simpl.
  destruct (_ && _); reflexivity.
Qed.

Lemma fill_Ignored_eq b a :
  fill_Ignored b a = set_Ignored (gap_slice (Ignored a) (Ignored b)) a.
Proof.
  unfold fill_Ignored, gap_slice. destruct a; simpl.
  destruct (_ && _); reflexivity.
Qed.

Lemma fill_Parent_eq b a :
  fill_Parent b a = set_Parent (gap_pointer (Parent a) (Parent b)) a.
Proof.
  unfold fill_Parent, gap_pointer. destruct a; simpl.
  destruct (_ && _); reflexivity.
Qed.

Lemma fill_Children_eq b a :
  fill_Children b a
  = set_Children (gap_slice (Children a) (Children b)) a.
Proof.
  unfold fill_Children, gap_slice. destruct a; simpl.
  destruct (_ && _); reflexivity.
Qed.

Ltac through L :=
  rewrite L;
  cbn [set_Email set_Handle set_CreatedAt set_CreatedBy set_UpdatedAt
       set_Metadata set_pub set_Votes set_Followers set_Following
       set_Blocked set_Ignored set_Parent set_Children
       Hash Email Handle CreatedAt CreatedBy UpdatedAt Metadata pub
       Votes Followers Following Blocked Ignored Parent Children].

Lemma loadAccountData_merged a b :
  loadAccountData a b
  = if HashesEqual (Hash a) (Hash b) then merged a b else a.
Proof.
  unfold loadAccountData, merged.
  destruct (HashesEqual (Hash a) (Hash b)); [|reflexivity].
  cbv beta iota zeta delta [negb]. destruct a.
  through fill_Email_eq. through fill_Handle_eq.
  through fill_CreatedAt_eq. through fill_CreatedBy_eq.
  through fill_UpdatedAt_eq. through fill_Metadata_eq.
  through fill_pub_eq. through fill_Votes_eq.
  through fill_Followers_eq. through fill_Following_eq.
  through fill_Blocked_eq. through fill_Ignored_eq.
  through fill_Parent_eq. through fill_Children_eq.
  reflexivity.
Qed.

Lemma Hash_loadAccountData a b : Hash (loadAccountData a b) = Hash a.
Proof.
  rewrite loadAccountData_merged.
  destruct (HashesEqual _ _); reflexivity.
Qed.

(** Properties of the per-field rule. *)
Section Gap.

Context {A : Type} (empty : A -> bool).

Lemma gap_idem x y : gap empty (gap empty x y) y = gap empty x y.
Proof.
  unfold gap.
  destruct (empty x) eqn:Ex, (empty y) eqn:Ey; simpl;
    rewrite ?Ex, ?Ey; reflexivity.
Qed.

Lemma gap_keep x y : empty x = false -> gap empty x y = x.
Proof. intros Ex. unfold gap. rewrite Ex. reflexivity. Qed.

Lemma gap_comm x y z :
  (empty x = true -> empty y = false -> empty z = false -> y = z) ->
  gap empty (gap empty x y) z = gap empty (gap empty x z) y.
Proof.
  intros Hyz. unfold gap.
  destruct (empty x) eqn:Ex, (empty y) eqn:Ey, (empty z) eqn:Ez; simpl;
    rewrite ?Ex, ?Ey, ?Ez; simpl; try reflexivity.
  apply Hyz; reflexivity.
Qed.

End Gap.

Lemma pos_ltb (n : nat) : (0 <? n)%nat = negb (n =? 0)%nat.
Proof. destruct n; reflexivity. Qed.

Lemma gap_string_gap x y : gap_string x y = gap empty_string x y.
Proof.
  unfold gap_string, gap, empty_string. rewrite pos_ltb. reflexivity.
Qed.

Lemma gap_time_gap x y : gap_time x y = gap IsZero x y.
Proof. reflexivity. Qed.

Lemma gap_pointer_gap x y : gap_pointer x y = gap is_nil x y.
Proof. reflexivity. Qed.

Lemma gap_slice_gap {A} (x y : slice A) :
  gap_slice x y = gap empty_slice x y.
Proof.
  unfold gap_slice, gap, empty_slice. rewrite pos_ltb. reflexivity.
Qed.

Lemma merged_gap a b :
  merged a b =
  {| Hash := Hash a;
     Email := gap empty_string (Email a) (Email b);
     Handle := gap empty_string (Handle a) (Handle b);
     CreatedAt := gap IsZero (CreatedAt a) (CreatedAt b);
     CreatedBy := gap is_nil (CreatedBy a) (CreatedBy b);
     UpdatedAt := gap IsZero (UpdatedAt a) (UpdatedAt b);
     Metadata := gap is_nil (Metadata a) (Metadata b);
     pub := gap is_nil (pub a) (pub b);
     Votes := gap empty_slice (Votes a) (Votes b);
     Followers := gap empty_slice (Followers a) (Followers b);
     Following := gap empty_slice (Following a) (Following b);
     Blocked := gap empty_slice (Blocked a) (Blocked b);
     Ignored := gap empty_slice (Ignored a) (Ignored b);
     Parent := gap is_nil (Parent a) (Parent b);
     Children := gap empty_slice (Children a) (Children b) |}.
Proof.
  unfold merged.
  rewrite !gap_string_gap, !gap_slice_gap. reflexivity.
Qed.

Lemma HashesEqual_true h1 h2 : h1 = h2 -> HashesEqual h1 h2 = true.
Proof.
  intros ->. unfold HashesEqual. apply bool_decide_eq_true. reflexivity.
Qed.

Lemma HashesEqual_false h1 h2 : h1 <> h2 -> HashesEqual h1 h2 = false.
Proof.
  intros Hne. unfold HashesEqual. apply bool_decide_eq_false. exact Hne.
Qed.

(** C1. Identity guard: when the two hashes differ, the merge leaves
    the destination account exactly as it was. *)
Theorem loadAccountData_identity_guard (dst src : Account) :
  Hash dst <> Hash src -> loadAccountData dst src = dst.
Proof.
  intros Hne. unfold loadAccountData.
  rewrite (HashesEqual_false _ _ Hne). reflexivity.
Qed.

(** C2. Gap-fill never destroys: for accounts with equal hashes and for
    each of the fourteen merged fields, a field that is populated in the
    destination holds the same value after the merge, whatever the
    source holds. *)
Theorem loadAccountData_keeps_populated
        (dst src : Account) (f : field) :
  Hash dst = Hash src ->
  populated (get f dst) = true ->
  get f (loadAccountData dst src) = get f dst.
Proof.
  intros Hh Hp. rewrite loadAccountData_merged.
  rewrite (HashesEqual_true _ _ Hh). rewrite merged_gap.
  destruct f; cbn [get populated] in *;
    cbn [Email Handle CreatedAt CreatedBy UpdatedAt Metadata pub Votes
         Followers Following Blocked Ignored Parent Children];
    f_equal; apply gap_keep; apply negb_true_iff in Hp; exact Hp.
Qed.

(** C6. Gap-fill idempotence: merging the same source a second time
    changes nothing. *)
Theorem loadAccountData_idempotent (dst src : Account) :
  loadAccountData (loadAccountData dst src) src = loadAccountData dst src.
Proof.
  rewrite (loadAccountData_merged (loadAccountData dst src) src).
  rewrite Hash_loadAccountData.
  rewrite (loadAccountData_merged dst src).
  destruct (HashesEqual (Hash dst) (Hash src)) eqn:E; [|reflexivity].
  rewrite (merged_gap (merged dst src) src), (merged_gap dst src).
  cbn [Hash Email Handle CreatedAt CreatedBy UpdatedAt Metadata pub Votes
       Followers Following Blocked Ignored Parent Children].
  f_equal; apply gap_idem.
Qed.

Ltac agreed Hag F :=
  let Hf := fresh "Hf" in
  pose proof (Hag F) as Hf; cbn [get populated] in Hf;
  match goal with
  | Ex : _ = true, Ey : _ = false, Ez : _ = false |- _ =>
      rewrite Ex, Ey, Ez in Hf
  end;
  specialize (Hf eq_refl eq_refl eq_refl); congruence.

(** C5, as amended.  For accounts that all carry the same hash, the two
    orders of merging [s1] and [s2] into [dst] give the same account
    whenever the sources agree on the gaps of [dst]: for every merged
    field that is empty in [dst] and populated in both sources, the two
    sources hold the same value. *)
Theorem loadAccountData_commutes_on_agreeing_sources
        (dst s1 s2 : Account) :
  Hash dst = Hash s1 ->
  Hash dst = Hash s2 ->
  agree_on_gaps dst s1 s2 ->
  loadAccountData (loadAccountData dst s1) s2
  = loadAccountData (loadAccountData dst s2) s1.
Proof.
  intros H1 H2 Hag.
  rewrite (loadAccountData_merged (loadAccountData dst s1) s2).
  rewrite (loadAccountData_merged (loadAccountData dst s2) s1).
  rewrite !Hash_loadAccountData.
  rewrite (HashesEqual_true _ _ H1), (HashesEqual_true _ _ H2).
  rewrite !loadAccountData_merged.
  rewrite (HashesEqual_true _ _ H1), (HashesEqual_true _ _ H2).
  rewrite (merged_gap (merged dst s1) s2), (merged_gap (merged dst s2) s1).
  rewrite (merged_gap dst s1), (merged_gap dst s2).
  cbn [Hash Email Handle CreatedAt CreatedBy UpdatedAt Metadata pub Votes
       Followers Following Blocked Ignored Parent Children].
  f_equal; apply gap_comm; intros Ex Ey Ez;
    unfold empty_string, empty_slice in Ex, Ey, Ez;
    first [ agreed Hag FEmail | agreed Hag FHandle | agreed Hag FCreatedAt
          | agreed Hag FCreatedBy | agreed Hag FUpdatedAt
          | agreed Hag FMetadata | agreed Hag Fpub | agreed Hag FVotes
          | agreed Hag FFollowers | agreed Hag FFollowing
          | agreed Hag FBlocked | agreed Hag FIgnored | agreed Hag FParent
          | agreed Hag FChildren ].
Qed.

End Reconciler.

Lemma loadAccountData_identity_guard_witness :
  app.Hash fixtures.alice_session <> app.Hash fixtures.bob_stored
  /\ app.loadAccountData fixtures.alice_session fixtures.bob_stored
     = fixtures.alice_session.
Proof.
  split; [discriminate|].
  apply (loadAccountData_identity_guard
           fixtures.alice_session fixtures.bob_stored).
  discriminate.
Defined.

Lemma loadAccountData_keeps_populated_witness :
  app.get app.FHandle
          (app.loadAccountData fixtures.alice_session fixtures.alice_stored)
  = app.VString "alice".
Proof.
  apply (loadAccountData_keeps_populated
           fixtures.alice_session fixtures.alice_stored app.FHandle);
    reflexivity.
Defined.

(** C5, as stated, fails: two records of the same account that disagree
    on the e-mail address fill an empty destination differently in the
    two orders, the first one merged wins. *)
Lemma loadAccountData_order_matters :
  app.Hash (fixtures.blank "e33c4ff5") = app.Hash fixtures.alice_old_mail
  /\ app.Hash (fixtures.blank "e33c4ff5") = app.Hash fixtures.alice_new_mail
  /\ app.Email
       (app.loadAccountData
          (app.loadAccountData (fixtures.blank "e33c4ff5")
                               fixtures.alice_old_mail)
          fixtures.alice_new_mail) = "alice@old.example"
  /\ app.Email
       (app.loadAccountData
          (app.loadAccountData (fixtures.blank "e33c4ff5")
                               fixtures.alice_new_mail)
          fixtures.alice_old_mail) = "alice@new.example"
  /\ app.loadAccountData
       (app.loadAccountData (fixtures.blank "e33c4ff5")
                            fixtures.alice_old_mail)
       fixtures.alice_new_mail
     <> app.loadAccountData
          (app.loadAccountData (fixtures.blank "e33c4ff5")
                               fixtures.alice_new_mail)
          fixtures.alice_old_mail.
Proof.
  repeat split; try reflexivity.
  intros Heq. apply (f_equal app.Email) in Heq.
  vm_compute in Heq. discriminate Heq.
Qed.

Lemma loadAccountData_commutes_on_agreeing_sources_witness :
  app.loadAccountData
    (app.loadAccountData (fixtures.blank "e33c4ff5")
                         fixtures.alice_old_mail)
    fixtures.alice_handle_only
  = app.loadAccountData
      (app.loadAccountData (fixtures.blank "e33c4ff5")
                           fixtures.alice_handle_only)
      fixtures.alice_old_mail.
Proof.
  apply (loadAccountData_commutes_on_agreeing_sources
           (fixtures.blank "e33c4ff5") fixtures.alice_old_mail
           fixtures.alice_handle_only); try reflexivity.
  intros f; destruct f; simpl; intros; solve [reflexivity | discriminate].
Defined.

(** ** Key resolution *)

Section KeyResolver.

Import Go api.
Context `{Collaborators}.

Lemma GetKey_unparsed id k calls e :
  url_Parse id = inr e -> GetKey id k calls = (inr e, k, calls).
Proof. intros Hp. unfold GetKey. rewrite Hp. reflexivity. Qed.

Lemma GetKey_other_fragment id k calls u :
  url_Parse id = inl u ->
  Fragment u <> "main-key" ->
  GetKey id k calls = (inr (Errorf "invalid key"), k, calls).
Proof.
  intros Hp Hf. unfold GetKey. rewrite Hp.
  rewrite (bool_decide_eq_false_2 _ Hf). reflexivity.
Qed.

Lemma GetKey_main_key id k calls u :
  url_Parse id = inl u ->
  Fragment u = "main-key" ->
  GetKey id k calls =
  (match snd (LoadAccount [path_Base (Path u)]) with
   | Some e => inr e
   | None =>
       ParsePKIXPublicKey
         (Metadata_Key_Public (fst (LoadAccount [path_Base (Path u)])))
   end,
   mkKeyLoader (fst (LoadAccount [path_Base (Path u)])),
   calls ++ [[path_Base (Path u)]]).
Proof.
  intros Hp Hf. unfold GetKey. rewrite Hp.
  rewrite (bool_decide_eq_true_2 _ Hf). cbn [negb].
  destruct (LoadAccount [path_Base (Path u)]) as [a [e|]]; cbn;
    [reflexivity|].
  destruct (ParsePKIXPublicKey (Metadata_Key_Public a)); reflexivity.
Qed.

Lemma app_one_neq {A} (l : list A) (x : A) : l ++ [x] <> l.
Proof.
  intros Heq. apply (f_equal (@length A)) in Heq.
  rewrite length_app in Heq. simpl in Heq. lia.
Qed.

(** C7. Key id fragment check: a key id whose URL has a fragment other
    than "main-key" is answered with the "invalid key" error while the
    key loader and the account store are left untouched; whenever
    [GetKey] reaches the store or returns a key, the fragment is
    "main-key", the store was asked once for the hash in the URL's path,
    and a returned key is the decoding of the loaded account's stored
    public key. *)
Theorem GetKey_fragment_check
        (id : string) (k : keyLoader) (calls : list store_call) :
  (forall u, url_Parse id = inl u -> Fragment u <> "main-key" ->
             GetKey id k calls = (inr (Errorf "invalid key"), k, calls))
  /\ (forall key k' calls',
         GetKey id k calls = (key, k', calls') ->
         calls' <> calls \/ (exists pub, key = inl pub) ->
         exists u,
           url_Parse id = inl u
           /\ Fragment u = "main-key"
           /\ calls' = calls ++ [[path_Base (Path u)]]
           /\ k' = mkKeyLoader (fst (LoadAccount [path_Base (Path u)]))
           /\ (forall pub, key = inl pub ->
                 ParsePKIXPublicKey (Metadata_Key_Public (acc k'))
                 = inl pub)).
Proof.
  split; [intros u; apply GetKey_other_fragment|].
  intros key k' calls' Hg Hreach.
  destruct (url_Parse id) as [u|e] eqn:Hp.
  - destruct (decide (Fragment u = "main-key")) as [Hf|Hf].
    + rewrite (GetKey_main_key _ _ _ _ Hp Hf) in Hg.
      injection Hg as Hkey Hk Hc. subst k' calls'.
      exists u. repeat split; try reflexivity; [exact Hf|].
      intros pub Hpub. cbn [acc]. rewrite <- Hkey in Hpub.
      destruct (snd (LoadAccount [path_Base (Path u)]));
        [discriminate Hpub | exact Hpub].
    + rewrite (GetKey_other_fragment _ _ _ _ Hp Hf) in Hg.
      injection Hg as Hkey Hk Hc. subst.
      destruct Hreach as [Hc|[pub Hpub]];
        [contradiction Hc; reflexivity | discriminate Hpub].
  - rewrite (GetKey_unparsed _ _ _ _ Hp) in Hg.
    injection Hg as Hkey Hk Hc. subst.
    destruct Hreach as [Hc|[pub Hpub]];
      [contradiction Hc; reflexivity | discriminate Hpub].
Qed.

(** ** Signature middleware *)

Lemma missing_header_found required params h :
  List.In h required -> ~ List.In h (covered params) ->
  exists h', missing_header required params = Some h'.
Proof.
  intros Hr Hd. unfold missing_header.
  destruct (List.find _ required) as [h'|] eqn:E; [eauto|].
  exfalso. pose proof (List.find_none _ _ E h Hr) as Hn.
  apply negb_false_iff in Hn. apply List.existsb_exists in Hn.
  destruct Hn as [x [Hx Heq]]. apply String.eqb_eq in Heq. subst x.
  exact (Hd Hx).
Qed.

Lemma Verify_missing_header r k calls params h :
  getParamsFromAuthHeader r = Some params ->
  List.In h requiredHeaders -> ~ List.In h (covered params) ->
  exists e, Verify requiredHeaders r k calls = (Some e, k, calls).
Proof.
  intros Hp Hr Hd. unfold Verify. rewrite Hp.
  destruct (bool_decide (KeyId params = "")); [eauto|].
  destruct (bool_decide (Algorithm params = "")); [eauto|].
  destruct (String.length (Signature params) =? 0)%nat; [eauto|].
  destruct (missing_header_found _ _ _ Hr Hd) as [h' ->]. eauto.
Qed.

(** The handler function has no path on which it writes a status or
    keeps the request from the next handler. *)
Lemma VerifyHttpSignature_never_rejects r k calls :
  status (VerifyHttpSignature r k calls) = None
  /\ exists a, next (VerifyHttpSignature r k calls) = Some a.
Proof.
  unfold VerifyHttpSignature.
  destruct (Header r !! "Authorization"); [|eauto].
  destruct (Verify requiredHeaders r k calls) as [[[e|] k'] calls'];
    cbn; eauto.
Qed.

(** C3, as amended.  A request with an [Authorization] header whose
    signature does not cover one of the required headers (such as
    "date") fails verification without any key being resolved, and the
    middleware does not reject it: it adds the challenge to the
    response, logs a warning, writes no status and passes the request on
    under the anonymous account. *)
Theorem VerifyHttpSignature_missing_header_served_anonymous
        (r : Request) (k : keyLoader) (calls : list store_call)
        (params : Params) (h : string) :
  is_Some (Header r !! "Authorization") ->
  getParamsFromAuthHeader r = Some params ->
  List.In h requiredHeaders ->
  ~ List.In h (covered params) ->
  VerifyHttpSignature r k calls =
  {| added := [("WWW-Authenticate", challenge)];
     status := None;
     logged :=
       [log.mkEntry log.WarnLevel "invalid HTTP signature" []
          [("handle", Handle AnonymousAccount);
           ("hash", Hash AnonymousAccount);
           ("header", Sprintf_q_Header (Header r))]];
     next := Some AnonymousAccount;
     getter := k;
     store_calls := calls |}.
Proof.
  intros [v Hv] Hp Hr Hd. unfold VerifyHttpSignature. rewrite Hv.
  destruct (Verify_missing_header r k calls params h Hp Hr Hd) as [e ->].
  reflexivity.
Qed.

End KeyResolver.

Lemma GetKey_fragment_check_witness :
  @api.GetKey fixtures.peer
              "https://littr.example.org/api/actors/e33c4ff5#key-2"
              fixtures.loader0 []
  = (inr (Go.Errorf "invalid key"), fixtures.loader0, []).
Proof.
  apply (proj1 (@GetKey_fragment_check
                  fixtures.peer
                  "https://littr.example.org/api/actors/e33c4ff5#key-2"
                  fixtures.loader0 [])
               (Go.mkURL "https" "littr.example.org" "/api/actors/e33c4ff5"
                         "key-2")).
  - reflexivity.
  - discriminate.
Defined.

(** C3, as stated, fails: the signature of this request covers
    "(request-target)" and "host" but not "date"; the middleware writes no
    status and hands the request to the next handler under the anonymous
    account. *)
Lemma signature_without_date_served_as_anonymous :
  api.Header fixtures.request_without_date !! "Authorization"
  = Some [fixtures.signed_without_date]
  /\ @api.getParamsFromAuthHeader fixtures.peer fixtures.request_without_date
     = Some fixtures.params_without_date
  /\ ~ List.In "date" (@api.covered fixtures.peer
                                     fixtures.params_without_date)
  /\ api.status (@api.VerifyHttpSignature
                   fixtures.peer fixtures.request_without_date
                   fixtures.loader0 []) = None
  /\ api.next (@api.VerifyHttpSignature
                 fixtures.peer fixtures.request_without_date
                 fixtures.loader0 []) = Some fixtures.anonymous
  /\ ~ api.rejected_unauthorized
         (@api.VerifyHttpSignature
            fixtures.peer fixtures.request_without_date
            fixtures.loader0 []).
Proof.
  assert (Hnext :
            api.next (@api.VerifyHttpSignature
                        fixtures.peer fixtures.request_without_date
                        fixtures.loader0 []) = Some fixtures.anonymous)
    by (vm_compute; reflexivity).
  split; [vm_compute; reflexivity|].
  split; [vm_compute; reflexivity|].
  split; [simpl; intros [Hd|[Hd|[]]]; discriminate Hd|].
  split; [vm_compute; reflexivity|].
  split; [exact Hnext|].
  intros [_ Hn]. rewrite Hnext in Hn. discriminate Hn.
Qed.

Lemma VerifyHttpSignature_missing_header_served_anonymous_witness :
  api.next (@api.VerifyHttpSignature
              fixtures.peer fixtures.request_without_date
              fixtures.loader0 []) = Some fixtures.anonymous.
Proof.
  rewrite (@VerifyHttpSignature_missing_header_served_anonymous
             fixtures.peer fixtures.request_without_date fixtures.loader0 []
             fixtures.params_without_date "date").
  - reflexivity.
  - exists [fixtures.signed_without_date]. vm_compute. reflexivity.
  - vm_compute. reflexivity.
  - simpl. right. right. left. reflexivity.
  - simpl. intros [Hd|[Hd|[]]]; discriminate Hd.
Defined.

(** ** OAuth2 configuration *)

Section TokenManager.

Import Go app.
Context `{Collaborators}.
Variable env : gmap string string.

(** None of the five provider entries sets a redirect URL; only the
    test on the configured OAuth2 URL does. *)
Lemma GetOauth2Config_RedirectURL_cases provider localBaseURL :
  RedirectURL (GetOauth2Config env provider localBaseURL) =
  match url_Parse (Getenv env "OAUTH2_URL") with
  | inr _ => localBaseURL +:+ "/auth/" +:+ provider +:+ "/callback"
  | inl u =>
      if decide (Host u = "")
      then localBaseURL +:+ "/auth/" +:+ provider +:+ "/callback"
      else ""
  end.
Proof.
  unfold GetOauth2Config.
  destruct (url_Parse (Getenv env "OAUTH2_URL")) as [u|e];
    [destruct (decide (Host u = ""))|]; try reflexivity.
  repeat (match goal with |- context [decide ?P] => destruct (decide P) end;
          try reflexivity).
Qed.

Lemma Getenv_unset key : env !! key = None -> Getenv env key = "".
Proof. intros Hn. unfold Getenv. rewrite Hn. reflexivity. Qed.

(** C10. The redirect URL is the local callback
    [{localBaseURL}/auth/{provider}/callback] when OAUTH2_URL is not set
    (the empty string parsing to no host), when it does not parse, and
    when it parses to an empty host; when it parses to a URL with a host
    the redirect URL is the empty string. *)
Theorem GetOauth2Config_redirect (provider localBaseURL : string) :
  let config := GetOauth2Config env provider localBaseURL in
  let callback := localBaseURL +:+ "/auth/" +:+ provider +:+ "/callback" in
  (env !! "OAUTH2_URL" = None ->
   (forall u, url_Parse "" = inl u -> Host u = "") ->
   RedirectURL config = callback)
  /\ (forall e, url_Parse (Getenv env "OAUTH2_URL") = inr e ->
                RedirectURL config = callback)
  /\ (forall u, url_Parse (Getenv env "OAUTH2_URL") = inl u ->
                Host u = "" -> RedirectURL config = callback)
  /\ (forall u, url_Parse (Getenv env "OAUTH2_URL") = inl u ->
                Host u <> "" -> RedirectURL config = "").
Proof.
  cbv zeta. rewrite GetOauth2Config_RedirectURL_cases.
  split; [|split; [|split]].
  - intros Hunset Hempty. rewrite (Getenv_unset _ Hunset).
    destruct (url_Parse "") as [u|e] eqn:Hp; [|reflexivity].
    rewrite (decide_True _ _ (Hempty u eq_refl)). reflexivity.
  - intros e ->. reflexivity.
  - intros u -> Hh. rewrite (decide_True _ _ Hh). reflexivity.
  - intros u -> Hh. rewrite (decide_False _ _ Hh). reflexivity.
Qed.

(** ** Start-up *)

Lemma heap_emit h l m a c w : heap (emit h l m a c w) = heap w.
Proof. unfold emit. destruct (is_nil (logger h)); reflexivity. Qed.


(** The grant answers with a token: start-up goes on, provided the
    service account has its metadata. *)
Lemma authorize_client_token h w actor t :
  (0 < String.length (ClientID (GetOauth2Config env "fedbox"
                                                (BaseURL (conf h)))))%nat ->
  (forall iri, fedbox_Actor iri = (Some actor, None)) ->
  (forall c u s, PasswordCredentialsToken c u s = (Some t, None)) ->
  is_nil (Metadata (fst (FromActivityPub actor (heap w)))) = false ->
  exists w',
    authorize_client env h w
    = Done ({| conf := conf h; v := v h;
               storage :=
                 {| storage_BaseURL := storage_BaseURL (storage h);
                    storage_app :=
                      Some (fst (FromActivityPub actor (heap w))) |};
               logger := logger h |}, w').
Proof.
  intros Hid Ha Hg Hm. unfold authorize_client.
  apply Nat.ltb_lt in Hid. rewrite Hid. rewrite Ha.
  cbv beta iota zeta.
  destruct (FromActivityPub actor (heap w)) as [a hp].
  cbn [fst] in Hm |- *. rewrite Hg. cbv beta iota.
  destruct (Metadata a); [discriminate Hm|]. cbn. eauto.
Qed.

(** The grant answers with neither a token nor an error: user creation
    is switched off and the cause is logged, and then the nil token is
    dereferenced. *)
Lemma authorize_client_nil_token h w actor e0 :
  (0 < String.length (ClientID (GetOauth2Config env "fedbox"
                                                (BaseURL (conf h)))))%nat ->
  (forall iri, fedbox_Actor iri = (Some actor, e0)) ->
  (forall c u s, PasswordCredentialsToken c u s = (None, None)) ->
  authorize_client env h w = Panic nil_dereference.
Proof.
  intros Hid Ha Hg. unfold authorize_client.
  apply Nat.ltb_lt in Hid. rewrite Hid. rewrite Ha.
  destruct e0; cbv beta iota zeta; rewrite ?heap_emit;
    destruct (FromActivityPub actor (heap w)) as [a hp];
    rewrite Hg; cbv beta iota;
    destruct (Metadata a); reflexivity.
Qed.

Lemma Init_nil_token c w actor e0 :
  (0 < String.length (Getenv env "OAUTH2_KEY"))%nat ->
  strings_ToLower "fedbox" = "fedbox" ->
  (forall iri, fedbox_Actor iri = (Some actor, e0)) ->
  (forall cf u s, PasswordCredentialsToken cf u s = (None, None)) ->
  Init env c w = Panic nil_dereference.
Proof.
  intros Hid Hl Ha Hg. unfold Init. cbv zeta.
  rewrite authorize_client_nil_token with (actor := actor) (e0 := e0);
    [reflexivity| |assumption|assumption].
  unfold GetOauth2Config. rewrite Hl. cbn.
  destruct (url_Parse _) as [u|e]; [destruct (decide _)|]; exact Hid.
Qed.

End TokenManager.

Lemma GetOauth2Config_redirect_witness :
  app.RedirectURL
    (@app.GetOauth2Config (fixtures.node (None, None))
                          fixtures.env_with_client "github"
                          "https://littr.example.org")
  = "https://littr.example.org/auth/github/callback"
  /\ app.RedirectURL
       (@app.GetOauth2Config (fixtures.node (None, None))
                             fixtures.env_with_bad_oauth_url "github"
                             "https://littr.example.org")
     = "https://littr.example.org/auth/github/callback"
  /\ app.RedirectURL
       (@app.GetOauth2Config (fixtures.node (None, None))
                             fixtures.env_with_oauth_path "github"
                             "https://littr.example.org")
     = "https://littr.example.org/auth/github/callback"
  /\ app.RedirectURL
       (@app.GetOauth2Config (fixtures.node (None, None))
                             fixtures.env_with_oauth_url "github"
                             "https://littr.example.org")
     = "".
Proof.
  split; [|split; [|split]].
  - apply (proj1 (@GetOauth2Config_redirect
                    (fixtures.node (None, None)) fixtures.env_with_client
                    "github" "https://littr.example.org")).
    + vm_compute. reflexivity.
    + intros u Hu. vm_compute in Hu. injection Hu as <-. reflexivity.
  - apply (proj1 (proj2 (@GetOauth2Config_redirect
                    (fixtures.node (None, None))
                    fixtures.env_with_bad_oauth_url
                    "github" "https://littr.example.org"))
                 (Go.mkError Go.Foreign "parse: invalid URL")).
    vm_compute. reflexivity.
  - apply (proj1 (proj2 (proj2 (@GetOauth2Config_redirect
                    (fixtures.node (None, None))
                    fixtures.env_with_oauth_path
                    "github" "https://littr.example.org")))
                 (Go.mkURL "" "" "/oauth" "")).
    + vm_compute. reflexivity.
    + reflexivity.
  - apply (proj2 (proj2 (proj2 (@GetOauth2Config_redirect
                    (fixtures.node (None, None))
                    fixtures.env_with_oauth_url
                    "github" "https://littr.example.org")))
                 (Go.mkURL "https" "auth.example.org" "" "")).
    + vm_compute. reflexivity.
    + discriminate.
Defined.

(** C9, where the code departs from the claim.  The client id is
    configured, the service actor loads, and the password grant answers
    with a nil token and a nil error: [Init] switches user creation off
    and logs the cause, then dereferences the nil token and panics, so no
    handler is returned. *)
Theorem Init_nil_token_panics :
  @app.Init (fixtures.node (None, None)) fixtures.env_with_client
            fixtures.config0 fixtures.world0
  = Go.Panic Go.nil_dereference.
Proof. vm_compute. reflexivity. Qed.

(** With an error from the grant, or with a token, the same node starts. *)
Example Init_grant_error_starts :
  exists h w,
    @app.Init (fixtures.node
                 (None,
                  Some (Go.mkError Go.Foreign "oauth2: cannot fetch token")))
              fixtures.env_with_client fixtures.config0 fixtures.world0
    = Go.Done (h, None, w)
    /\ app.UserCreatingEnabled (app.conf h) = false
    /\ length (app.emitted w) = 1%nat.
Proof. eexists _, _. vm_compute. repeat split. Qed.

Example Init_token_starts :
  exists h w,
    @app.Init (fixtures.node (Some fixtures.token0, None))
              fixtures.env_with_client fixtures.config0 fixtures.world0
    = Go.Done (h, None, w)
    /\ app.UserCreatingEnabled (app.conf h) = true
    /\ default fixtures.metadata0 (app.heap w !! 1%N)
       = app.mkMetadata (app.mkOAuth "" "" "fedbox" (Some fixtures.token0)).
Proof. eexists _, _. vm_compute. repeat split. Qed.

(** ** The score of an item *)

Section ScoreLaws.

Import PrimFloat FloatOps SpecFloat FloatAxioms.
Import Go content score.







End ScoreLaws.


(** * Further properties of the code *)

(** ** Masking and session keys *)

Lemma length_app_string (s t : string) :
  String.length (s +:+ t) = String.length s + String.length t.
Proof.
  induction s as [|c s IH]; [reflexivity|].
  change (S (String.length (s +:+ t))
          = S (String.length s + String.length t)).
  rewrite IH. reflexivity.
Qed.

Lemma length_strings_Repeat_star (k : nat) :
  String.length (Go.strings_Repeat "*" k) = k.
Proof.
  induction k as [|k IH]; [reflexivity|].
  change (S (String.length (Go.strings_Repeat "*" k)) = S k).
  rewrite IH. reflexivity.
Qed.

Lemma length_slice_from (s : string) (i : nat) :
  String.length (Go.slice_from s i) = String.length s - i.
Proof.
  revert s; induction i as [|i IH]; intros s.
  - destruct s; cbn; lia.
  - destruct s as [|c r]; [reflexivity|]. cbn. apply IH.
Qed.

Lemma length_slice_to (s : string) (i : nat) :
  i <= String.length s -> String.length (Go.slice_to s i) = i.
Proof.
  revert s; induction i as [|i IH]; intros s Hi.
  - destruct s; reflexivity.
  - destruct s as [|c r]; cbn in Hi; [lia|]. cbn. rewrite IH by lia.
    reflexivity.
Qed.

Lemma slice_to_prefix (s : string) (i : nat) :
  Go.slice_to s i +:+ Go.slice_from s i = s.
Proof.
  revert s; induction i as [|i IH]; intros s.
  - destruct s; reflexivity.
  - destruct s as [|c r]; [reflexivity|].
    change (String c (Go.slice_to r i +:+ Go.slice_from r i) = String c r).
    rewrite IH. reflexivity.
Qed.

Lemma app_string_assoc (s t u : string) :
  (s +:+ t) +:+ u = s +:+ (t +:+ u).
Proof.
  induction s as [|c s IH]; [reflexivity|].
  change (String c ((s +:+ t) +:+ u) = String c (s +:+ (t +:+ u))).
  rewrite IH. reflexivity.
Qed.

(** X1. The masked form of a secret is as long as the secret, and
    never shorter than three characters: a log line shows the length of
    every secret longer than three bytes and hides the length of the
    shorter ones. *)
Theorem hideString_length (s : string) :
  String.length (app.hideString s) = Nat.max 3 (String.length s).
Proof.
  unfold app.hideString.
  destruct (String.length s <=? 3)%nat eqn:E.
  - apply Nat.leb_le in E. cbn. lia.
  - apply Nat.leb_gt in E.
    rewrite length_app_string, length_strings_Repeat_star, length_slice_from.
    lia.
Qed.

(** X2. Session keys read from the environment: there are at most two,
    each one is exactly 16 bytes long, and each one is the first 16 bytes
    of SESS_AUTH_KEY or of SESS_ENC_KEY; a variable shorter than 16 bytes
    contributes no key. *)
Theorem loadEnvSessionKeys_sixteen_bytes (env : gmap string string) :
  length (app.loadEnvSessionKeys env) <= 2
  /\ (forall key, List.In key (app.loadEnvSessionKeys env) ->
        String.length key = 16
        /\ (exists rest,
               Go.Getenv env "SESS_AUTH_KEY" = key +:+ rest
               \/ Go.Getenv env "SESS_ENC_KEY" = key +:+ rest))
  /\ (String.length (Go.Getenv env "SESS_AUTH_KEY") < 16 ->
      String.length (Go.Getenv env "SESS_ENC_KEY") < 16 ->
      app.loadEnvSessionKeys env = []).
Proof.
  unfold app.loadEnvSessionKeys.
  set (a := Go.Getenv env "SESS_AUTH_KEY").
  set (e := Go.Getenv env "SESS_ENC_KEY").
  destruct (Nat.leb_spec 16 (String.length a)) as [Ea|Ea];
    destruct (Nat.leb_spec 16 (String.length e)) as [Ee|Ee];
    cbn [app length]; (split; [lia|split]).
  all: try (intros; lia).
  all: try reflexivity.
  all: intros key Hin; cbn in Hin.
  all: repeat match goal with
         | H : _ \/ _ |- _ => destruct H
         | H : False |- _ => destruct H
         end.
  all: match goal with
       | H : _ = ?k |- String.length ?k = _ /\ _ => rewrite <- H
       end.
  all: split; [apply length_slice_to; lia|].
  all: first [ exists (Go.slice_from a 16); left;
               symmetry; apply slice_to_prefix
             | exists (Go.slice_from e 16); right;
               symmetry; apply slice_to_prefix ].
Qed.

Lemma loadEnvSessionKeys_sixteen_bytes_witness :
  String.length "0123456789abcdef" = 16.
Proof.
  refine (proj1 (proj1 (proj2 (loadEnvSessionKeys_sixteen_bytes
                                 (<["SESS_AUTH_KEY" := "0123456789abcdefXYZ"]>
                                    (<["SESS_ENC_KEY" := "short"]> ∅))))
                       "0123456789abcdef" _)).
  vm_compute. left. reflexivity.
Defined.

(** ** More on account reconciliation *)

Section ReconcilerLaws.

Import Go app.

Lemma gap_assoc {A} (empty : A -> bool) (x y z : A) :
  gap empty (gap empty x y) z = gap empty x (gap empty y z).
Proof.
  unfold gap.
  destruct (empty x) eqn:Ex, (empty y) eqn:Ey, (empty z) eqn:Ez; simpl;
    rewrite ?Ex, ?Ey, ?Ez; reflexivity.
Qed.

(** The value of one field after a merge. *)
Lemma get_loadAccountData (dst src : Account) (f : field) :
  get f (loadAccountData dst src) =
  if HashesEqual (Hash dst) (Hash src)
     && negb (populated (get f dst)) && populated (get f src)
  then get f src else get f dst.
Proof.
  rewrite loadAccountData_merged.
  destruct (HashesEqual (Hash dst) (Hash src)); [|reflexivity].
  rewrite merged_gap.
  destruct f; cbn [get populated andb Email Handle CreatedAt CreatedBy
                   UpdatedAt Metadata pub Votes Followers Following
                   Blocked Ignored Parent Children];
    unfold gap, empty_string, empty_slice; rewrite negb_involutive;
    match goal with |- context [?a && negb ?b] =>
      destruct a, b; reflexivity end.
Qed.

(** X3. The gap rule, field by field.  For accounts with equal hashes,
    a merged field that is empty in the destination and populated in the
    source holds the source's value after the merge.  An empty source
    field changes nothing, whatever its representation: an empty non-nil
    collection in the source does not replace a nil one in the
    destination. *)
Theorem loadAccountData_gap_rule (dst src : Account) (f : field) :
  (Hash dst = Hash src ->
   populated (get f dst) = false ->
   populated (get f src) = true ->
   get f (loadAccountData dst src) = get f src)
  /\ (populated (get f src) = false ->
      get f (loadAccountData dst src) = get f dst).
Proof.
  rewrite get_loadAccountData. split.
  - intros Hh Hd Hs.
    rewrite (HashesEqual_true _ _ Hh), Hd, Hs. reflexivity.
  - intros Hs. rewrite Hs. rewrite andb_false_r. reflexivity.
Qed.

(** X4. After a merge a field is populated exactly when it was
    populated in the destination, or the hashes are equal and it is
    populated in the source: a merge never empties a field and never
    populates one from an account with another hash. *)
Theorem loadAccountData_populated (dst src : Account) (f : field) :
  populated (get f (loadAccountData dst src)) =
  populated (get f dst)
  || (HashesEqual (Hash dst) (Hash src) && populated (get f src)).
Proof.
  rewrite get_loadAccountData.
  destruct (HashesEqual (Hash dst) (Hash src)),
           (populated (get f dst)) eqn:Hd,
           (populated (get f src)) eqn:Hs; cbn; congruence.
Qed.

(** X5. Merging two sources one after the other is merging their
    merge: for three accounts with the same hash, merging [b] and then
    [c] into [a] gives the account that merging ([b] filled from [c])
    into [a] gives. *)
Theorem loadAccountData_sequential (a b c : Account) :
  Hash a = Hash b ->
  Hash b = Hash c ->
  loadAccountData (loadAccountData a b) c
  = loadAccountData a (loadAccountData b c).
Proof.
  intros Hab Hbc.
  rewrite (loadAccountData_merged (loadAccountData a b) c).
  rewrite (loadAccountData_merged a (loadAccountData b c)).
  rewrite !Hash_loadAccountData.
  rewrite (HashesEqual_true _ _ Hab).
  rewrite (HashesEqual_true (Hash a) (Hash c)) by congruence.
  rewrite (loadAccountData_merged a b), (loadAccountData_merged b c).
  rewrite (HashesEqual_true _ _ Hab), (HashesEqual_true _ _ Hbc).
  rewrite (merged_gap (merged a b) c), (merged_gap a (merged b c)).
  rewrite (merged_gap a b), (merged_gap b c).
  cbn [Hash Email Handle CreatedAt CreatedBy UpdatedAt Metadata pub Votes
       Followers Following Blocked Ignored Parent Children].
  f_equal; apply gap_assoc.
Qed.

End ReconcilerLaws.

Lemma loadAccountData_gap_rule_witness :
  app.get app.FEmail
          (app.loadAccountData fixtures.alice_session fixtures.alice_stored)
  = app.VString "alice@example.org"
  /\ app.get app.FBlocked
             (app.loadAccountData (fixtures.blank "e33c4ff5")
                                  fixtures.alice_session)
     = app.VHashes Go.nil_slice.
Proof.
  split.
  - apply (proj1 (loadAccountData_gap_rule
                    fixtures.alice_session fixtures.alice_stored
                    app.FEmail)); reflexivity.
  - apply (proj2 (loadAccountData_gap_rule
                    (fixtures.blank "e33c4ff5") fixtures.alice_session
                    app.FBlocked)).
    reflexivity.
Defined.

Lemma loadAccountData_sequential_witness :
  app.loadAccountData
    (app.loadAccountData (fixtures.blank "e33c4ff5")
                         fixtures.alice_handle_only)
    fixtures.alice_stored
  = app.loadAccountData
      (fixtures.blank "e33c4ff5")
      (app.loadAccountData fixtures.alice_handle_only
                           fixtures.alice_stored).
Proof.
  apply (loadAccountData_sequential
           (fixtures.blank "e33c4ff5") fixtures.alice_handle_only
           fixtures.alice_stored); reflexivity.
Defined.

(** ** More on the OAuth2 configuration and start-up *)

Section TokenManagerLaws.

Import Go app.
Context `{Collaborators}.
Variable env : gmap string string.

(** X6. Client id and secret are never hard-coded: for every provider
    name they are the values of one of the five pairs of environment
    variables, id and secret always from the same pair. *)
Theorem GetOauth2Config_credentials_from_env
        (provider localBaseURL : string) :
  exists key secret,
    List.In (key, secret)
            [("GITHUB_KEY", "GITHUB_SECRET"); ("GITLAB_KEY", "GITLAB_SECRET");
             ("FACEBOOK_KEY", "FACEBOOK_SECRET");
             ("GOOGLE_KEY", "GOOGLE_SECRET");
             ("OAUTH2_KEY", "OAUTH2_SECRET")]
    /\ ClientID (GetOauth2Config env provider localBaseURL)
       = Getenv env key
    /\ ClientSecret (GetOauth2Config env provider localBaseURL)
       = Getenv env secret.
Proof.
  unfold GetOauth2Config.
  repeat match goal with
         | |- context [decide (strings_ToLower provider = ?p)] =>
             destruct (decide (strings_ToLower provider = p))
         end;
    (destruct (url_Parse (Getenv env "OAUTH2_URL")) as [u|perr];
     [destruct (decide (Host u = ""))|]);
    cbn [ClientID ClientSecret set_RedirectURL];
    eexists _, _; (split; [|split; reflexivity]); cbn; tauto.
Qed.

Lemma fedbox_ClientID base :
  strings_ToLower "fedbox" = "fedbox" ->
  ClientID (GetOauth2Config env "fedbox" base) = Getenv env "OAUTH2_KEY".
Proof.
  intros Hl. unfold GetOauth2Config. rewrite Hl. cbn.
  destruct (url_Parse _) as [u|e]; [destruct (decide _)|]; reflexivity.
Qed.

(** X7. Without a client id for the federation provider (OAUTH2_KEY
    unset or empty) the node starts: [Init] returns the handler with user
    creation switched off, sets up no service account and leaves the
    accounts' metadata alone. *)
Theorem Init_without_client_id (c : appConfig) (w : world) :
  strings_ToLower "fedbox" = "fedbox" ->
  Getenv env "OAUTH2_KEY" = "" ->
  exists h err w',
    Init env c w = Done (h, err, w')
    /\ UserCreatingEnabled (conf h) = false
    /\ storage_app (storage h)
       = storage_app
           (ActivityPubService
              {| UserCreatingEnabled := UserCreatingEnabled c;
                 BaseURL := BaseURL c;
                 SessionKeys := loadEnvSessionKeys env;
                 SessionsBackend := SessionsBackend (conf h);
                 SessionsPath := SessionsPath (conf h);
                 Logger := Logger c |})
    /\ heap w' = heap w.
Proof.
  intros Hl Hk. unfold Init, authorize_client. cbv zeta.
  rewrite (fedbox_ClientID _ Hl), Hk. cbn [String.length Nat.ltb Nat.leb bind].
  destruct (ViewInit _) as [view [e|]] eqn:Hv;
    eexists _, _, _; (split; [reflexivity|]); cbn;
    rewrite ?heap_emit; repeat split; reflexivity.
Qed.




End TokenManagerLaws.

Lemma Init_without_client_id_witness :
  exists h err w',
    @app.Init (fixtures.node (None, None)) ∅ fixtures.config0 fixtures.world0
    = Go.Done (h, err, w')
    /\ app.UserCreatingEnabled (app.conf h) = false.
Proof.
  destruct (@Init_without_client_id (fixtures.node (None, None)) ∅
              fixtures.config0 fixtures.world0)
    as [h [err [w' [Hi [Hu _]]]]].
  - reflexivity.
  - vm_compute. reflexivity.
  - exists h, err, w'. split; assumption.
Defined.




(** ** More on the signature middleware *)

Section SignatureVerifierLaws.

Import Go api.
Context `{Collaborators}.

Lemma missing_header_none required params :
  missing_header required params = None ->
  forall h, List.In h required -> List.In h (covered params).
Proof.
  unfold missing_header. intros Hn h Hr.
  pose proof (List.find_none _ _ Hn h Hr) as Hf.
  apply negb_false_iff in Hf. apply List.existsb_exists in Hf.
  destruct Hf as [x [Hx Heq]]. apply String.eqb_eq in Heq. subst x.
  exact Hx.
Qed.

(** What [Verify] has established whenever it got as far as the key. *)
Lemma Verify_reaches_key r k calls err k' calls' :
  Verify requiredHeaders r k calls = (err, k', calls') ->
  err = None \/ calls' <> calls ->
  exists params,
    getParamsFromAuthHeader r = Some params
    /\ KeyId params <> ""
    /\ Algorithm params <> ""
    /\ (forall h, List.In h requiredHeaders -> List.In h (covered params)).
Proof.
  unfold Verify. intros Hv Hreach.
  destruct (getParamsFromAuthHeader r) as [params|];
    [|injection Hv as <- <- <-; destruct Hreach; congruence].
  destruct (bool_decide (KeyId params = "")) eqn:Ek;
    [injection Hv as <- <- <-; destruct Hreach; congruence|].
  destruct (bool_decide (Algorithm params = "")) eqn:Ea;
    [injection Hv as <- <- <-; destruct Hreach; congruence|].
  destruct (String.length (Signature params) =? 0)%nat;
    [injection Hv as <- <- <-; destruct Hreach; congruence|].
  destruct (missing_header requiredHeaders params) eqn:Em;
    [injection Hv as <- <- <-; destruct Hreach; congruence|].
  exists params. split; [reflexivity|].
  apply bool_decide_eq_false in Ek. apply bool_decide_eq_false in Ea.
  split; [exact Ek|]. split; [exact Ea|].
  apply missing_header_none. exact Em.
Qed.

(** X11. The middleware resolves a key, and passes a request on under
    an account other than the anonymous one, only for a request that has
    an [Authorization] header whose signature names a key and an
    algorithm and covers all three required headers; an account other
    than the anonymous one is the account the key loader holds, and no
    challenge is added for it. *)
Theorem VerifyHttpSignature_authenticates_only_covered
        (r : Request) (k : keyLoader) (calls : list store_call) :
  (store_calls (VerifyHttpSignature r k calls) <> calls
   \/ next (VerifyHttpSignature r k calls) <> Some AnonymousAccount ->
   is_Some (Header r !! "Authorization")
   /\ exists params,
       getParamsFromAuthHeader r = Some params
       /\ KeyId params <> ""
       /\ Algorithm params <> ""
       /\ (forall h, List.In h requiredHeaders ->
                     List.In h (covered params)))
  /\ (next (VerifyHttpSignature r k calls) <> Some AnonymousAccount ->
      added (VerifyHttpSignature r k calls) = []
      /\ next (VerifyHttpSignature r k calls)
         = Some (acc (getter (VerifyHttpSignature r k calls)))).
Proof.
  unfold VerifyHttpSignature.
  destruct (Header r !! "Authorization") as [v|] eqn:Hh.
  - destruct (Verify requiredHeaders r k calls) as [[err k'] calls'] eqn:Hv.
    split.
    + intros Hreach. split; [eauto|].
      apply (Verify_reaches_key _ _ _ _ _ _ Hv).
      destruct err as [e|]; cbn in Hreach; [|left; reflexivity].
      destruct Hreach as [Hc|Hn]; [right; exact Hc|congruence].
    + destruct err as [e|]; cbn; [congruence|]. intros _. split; reflexivity.
  - cbn. split; [intros [Hc|Hn]; congruence|congruence].
Qed.


(** The challenge sent with a failed verification names the three
    required headers in their order, after the realm when the node has a
    host name. *)
Lemma challenge_names_required_headers :
  challenge =
  "Signature "
  +:+ (if bool_decide (HostName = "") then ""
       else "realm=" +:+ Sprintf_q HostName +:+ ", ")
  +:+ "headers=" +:+ Sprintf_q "(request-target) host date".
Proof.
  unfold challenge. destruct (bool_decide (HostName = "")); cbn.
  - reflexivity.
  - rewrite !app_string_assoc. reflexivity.
Qed.

End SignatureVerifierLaws.

Lemma VerifyHttpSignature_authenticates_only_covered_witness :
  is_Some (api.Header samples.request_with_date !! "Authorization").
Proof.
  apply (proj1 (@VerifyHttpSignature_authenticates_only_covered
                  samples.peer_accepting samples.request_with_date
                  fixtures.loader0 [])).
  left. vm_compute. discriminate.
Defined.

(** ** Errors, sessions and headers in [frontend.go] *)

Section HandlersLaws.

Import Go app handlers.
Context `{Collaborators}.

(** X13. Whatever the error, the status chosen for it is one of nine
    client or server error codes, never a success or a redirect; 401 is
    chosen only for an error that [IsUnauthorized], and an error that no
    test recognises gets 500. *)
Theorem httpErrorResponse_is_error_status (e : error) :
  List.In (httpErrorResponse e) [400; 401; 403; 404; 405; 500; 501; 504; 505]
  /\ (httpErrorResponse e = 401 -> IsUnauthorized e = true)
  /\ (IsBadRequest e = false -> IsForbidden e = false ->
      IsNotSupported e = false -> IsMethodNotAllowed e = false ->
      IsNotFound e = false -> IsNotImplemented e = false ->
      IsUnauthorized e = false -> IsTimeout e = false ->
      httpErrorResponse e = 500).
Proof.
  unfold httpErrorResponse.
  destruct (IsBadRequest e), (IsForbidden e), (IsNotSupported e),
           (IsMethodNotAllowed e), (IsNotFound e), (IsNotImplemented e),
           (IsUnauthorized e), (IsTimeout e), (IsNotValid e);
    unfold StatusBadRequest, StatusForbidden, StatusHTTPVersionNotSupported,
      StatusMethodNotAllowed, StatusNotFound, StatusNotImplemented,
      StatusUnauthorized, StatusGatewayTimeout, StatusInternalServerError;
    (split; [cbn; tauto|split; intros;
                         first [reflexivity|discriminate|lia]]).
Qed.

(** X14. Where the current account falls back.  The account read from
    the session is the default (anonymous) account when sessions are
    disabled, the writer or the request is nil, the store fails or the
    session holds no account; when the session holds a value of another
    type the result is not the default account but the zero [Account]. *)
Theorem loadCurrentAccountFromSession_fallbacks
        (v : view) (w r : pointer) :
  (fst (loadCurrentAccountFromSession v w r) <> defaultAccount ->
   enabled (s v) = true /\ is_nil w = false /\ is_nil r = false
   /\ get_error (s v) = None
   /\ is_Some (Values (s v) !! SessionUserKey))
  /\ (forall tag,
         enabled (s v) = true -> is_nil w = false -> is_nil r = false ->
         get_error (s v) = None ->
         Values (s v) !! SessionUserKey = Some (OtherValue tag) ->
         fst (loadCurrentAccountFromSession v w r) = zeroAccount).
Proof.
  unfold loadCurrentAccountFromSession. split.
  - destruct (enabled (s v)), (is_nil w), (is_nil r); cbn;
      try congruence.
    destruct (get_error (s v)); cbn; [congruence|].
    destruct (Values (s v) !! SessionUserKey) as [[a|t]|]; cbn;
      intros Hne; repeat split; eauto; congruence.
  - intros tag -> -> -> -> ->. reflexivity.
Qed.

(** X15. What [saveAccountToSession] does to the session.  With
    sessions disabled, or without a writer or a request, it reports
    success and stores nothing.  When the store cannot give the session
    it returns that error and stores nothing.  Otherwise it puts the
    account under the user key, leaves every other value of the session
    alone, and returns what [Save] returns: the account is in the
    session object also when [Save] fails. *)
Theorem saveAccountToSession_outcome
        (v : view) (w r : pointer) (a : Account) :
  (enabled (s v) = false \/ is_nil w = true \/ is_nil r = true ->
   saveAccountToSession v w r a = (None, v))
  /\ (enabled (s v) = true -> is_nil w = false -> is_nil r = false ->
      (forall e, get_error (s v) = Some e ->
                 saveAccountToSession v w r a = (Some e, v))
      /\ (get_error (s v) = None ->
          fst (saveAccountToSession v w r a) = Save_error (s v)
          /\ Values (s (snd (saveAccountToSession v w r a)))
             !! SessionUserKey = Some (AccountValue a)
          /\ (forall key,
                 key <> SessionUserKey ->
                 Values (s (snd (saveAccountToSession v w r a))) !! key
                 = Values (s v) !! key))).
Proof.
  unfold saveAccountToSession. split.
  - intros [He|[Hw|Hr]].
    + rewrite He. reflexivity.
    + rewrite Hw. rewrite orb_true_r. reflexivity.
    + rewrite Hr. rewrite orb_true_r. reflexivity.
  - intros He Hw Hr. rewrite He, Hw, Hr. cbn [negb orb]. split.
    + intros e Hg. rewrite Hg. reflexivity.
    + intros Hg. rewrite Hg. cbn [fst snd s Values].
      split; [reflexivity|]. split.
      * apply lookup_insert_eq.
      * intros key Hk. apply lookup_insert_ne. congruence.
Qed.

(** X16. Whatever the response headers were and whatever the content
    security policy step does to them, the next handler is served with
    the four fixed security headers at their fixed values; every other
    header is as the policy step left it. *)
Theorem SetSecurityHeaders_fixed
        (h : handler) (hdr : gmap string (list string)) :
  SetSecurityHeaders h hdr !! "X-Frame-Options" = Some ["DENY"]
  /\ SetSecurityHeaders h hdr !! "X-Xss-Protection" = Some ["1; mode=block"]
  /\ SetSecurityHeaders h hdr !! "Referrer-Policy" = Some ["same-origin"]
  /\ SetSecurityHeaders h hdr !! "X-Content-Type-Options" = Some ["nosniff"]
  /\ (forall key,
         key <> "X-Frame-Options" -> key <> "X-Xss-Protection" ->
         key <> "Referrer-Policy" -> key <> "X-Content-Type-Options" ->
         SetSecurityHeaders h hdr !! key
         = SetCSP
             (if negb (Env_IsDev (conf h)) && Secure (conf h)
              then <["Strict-Transport-Security" :=
                       ["max-age=63072000; includeSubDomains; preload"]]> hdr
              else hdr) !! key).
Proof.
  unfold SetSecurityHeaders. cbv zeta.
  set (m := SetCSP _).
  repeat split.
  - rewrite !lookup_insert_ne by discriminate. apply lookup_insert_eq.
  - rewrite !lookup_insert_ne by discriminate. apply lookup_insert_eq.
  - rewrite !lookup_insert_ne by discriminate. apply lookup_insert_eq.
  - apply lookup_insert_eq.
  - intros key H1 H2 H3 H4.
    rewrite !lookup_insert_ne by congruence. reflexivity.
Qed.

End HandlersLaws.

Lemma loadCurrentAccountFromSession_fallbacks_witness :
  fst (@handlers.loadCurrentAccountFromSession
         samples_frontend.frontend_node samples_frontend.view_with_garbage
         (Go.addr 1) (Go.addr 2))
  = handlers.zeroAccount.
Proof.
  apply (proj2 (@loadCurrentAccountFromSession_fallbacks
                  samples_frontend.frontend_node samples_frontend.view_with_garbage
                  (Go.addr 1) (Go.addr 2)) 7%N); reflexivity.
Defined.

Lemma saveAccountToSession_outcome_witness :
  fst (@handlers.saveAccountToSession
         samples_frontend.frontend_node samples_frontend.view_unable_to_save
         (Go.addr 1) (Go.addr 2) fixtures.alice_session)
  = Some samples_frontend.disk_full
  /\ handlers.Values
       (handlers.s
          (snd (@handlers.saveAccountToSession
                  samples_frontend.frontend_node
                  samples_frontend.view_unable_to_save
                  (Go.addr 1) (Go.addr 2) fixtures.alice_session)))
     !! "__current_acct"
     = Some (handlers.AccountValue fixtures.alice_session).
Proof.
  destruct (proj2 (@saveAccountToSession_outcome
                     samples_frontend.frontend_node
                     samples_frontend.view_unable_to_save
                     (Go.addr 1) (Go.addr 2) fixtures.alice_session)
                  eq_refl eq_refl eq_refl) as [_ Hs].
  destruct (Hs eq_refl) as (Hf & Hv & _).
  split; [exact Hf|exact Hv].
Defined.

(** ** The CSRF key of a started node *)

Section CsrfKey.

Import Go app handlers.
Context {A : app.Collaborators} {F : handlers.Collaborators}.
Variable env : gmap string string.

Lemma SessionKeys_disable_user_creating h :
  SessionKeys (conf (disable_user_creating h)) = SessionKeys (conf h).
Proof. reflexivity. Qed.

Lemma authorize_client_SessionKeys h w h' w' :
  authorize_client env h w = Done (h', w') ->
  SessionKeys (conf h') = SessionKeys (conf h).
Proof.
  unfold authorize_client.
  destruct (0 <? String.length _)%nat; [|intros [= <- _]; reflexivity].
  destruct (fedbox_Actor _) as [oauth err].
  destruct err as [e0|]; (destruct oauth as [actor|];
    [|intros [= <- _]; reflexivity]);
    (destruct (FromActivityPub actor _) as [a hp]);
    (destruct (PasswordCredentialsToken _ _ _) as [tok [e1|]];
     [intros [= <- _]; reflexivity|]);
    (destruct tok as [t|]; cbv beta iota zeta;
     (destruct (Metadata a); cbn; [discriminate|]));
    try discriminate; intros [= <- _]; reflexivity.
Qed.

Lemma Init_SessionKeys c w h err w' :
  Init env c w = Done (h, err, w') ->
  SessionKeys (conf h) = loadEnvSessionKeys env.
Proof.
  unfold Init. cbv zeta.
  match goal with
  | |- context [authorize_client env ?h0 w] =>
      destruct (authorize_client env h0 w) as [[h1 w1]|m] eqn:Hac;
      [apply authorize_client_SessionKeys in Hac|discriminate]
  end.
  cbn [bind]. destruct (ViewInit (conf h1)) as [view e1].
  intros [= <- _ _]. cbn [conf]. exact Hac.
Qed.

(** X17. The key that protects forms against request forgery, on a
    node that [Init] has started: the first 16 bytes of SESS_AUTH_KEY
    when that variable has at least 16 bytes; otherwise the first 16
    bytes of SESS_ENC_KEY, the session encryption key, when that one has
    at least 16 bytes; otherwise the 32-byte key written in the source. *)
Theorem CSRF_key_after_Init (c : appConfig) (w w' w2 : world)
        (h : handler) (err : option error) :
  Init env c w = Done (h, err, w') ->
  fst (fst (CSRF h w2))
  = (if (16 <=? String.length (Getenv env "SESS_AUTH_KEY"))%nat
     then slice_to (Getenv env "SESS_AUTH_KEY") 16
     else if (16 <=? String.length (Getenv env "SESS_ENC_KEY"))%nat
          then slice_to (Getenv env "SESS_ENC_KEY") 16
          else fallback_authKey)
  /\ (String.length (fst (fst (CSRF h w2))) = 16
      \/ fst (fst (CSRF h w2)) = fallback_authKey
         /\ String.length fallback_authKey = 32).
Proof.
  intros Hi. apply Init_SessionKeys in Hi.
  unfold CSRF. rewrite Hi. unfold loadEnvSessionKeys.
  destruct (Nat.leb_spec 16 (String.length (Getenv env "SESS_AUTH_KEY")))
    as [Ha|Ha];
    destruct (Nat.leb_spec 16 (String.length (Getenv env "SESS_ENC_KEY")))
    as [He|He]; cbn [app fst];
    (split; [reflexivity|]).
  - left. apply length_slice_to. exact Ha.
  - left. apply length_slice_to. exact Ha.
  - left. apply length_slice_to. exact He.
  - right. split; reflexivity.
Qed.

End CsrfKey.

Lemma CSRF_key_after_Init_witness :
  exists h err w',
    @app.Init (fixtures.node (None, None))
              (<["SESS_ENC_KEY" := "fedcba9876543210-enc"]> ∅)
              fixtures.config0 fixtures.world0
    = Go.Done (h, err, w')
    /\ fst (fst (@handlers.CSRF samples_frontend.frontend_node
                                h fixtures.world0))
       = "fedcba9876543210".
Proof.
  destruct (@app.Init (fixtures.node (None, None))
              (<["SESS_ENC_KEY" := "fedcba9876543210-enc"]> ∅)
              fixtures.config0 fixtures.world0)
    as [[[h err] w']|m] eqn:Hi; [|vm_compute in Hi; discriminate Hi].
  exists h, err, w'. split; [reflexivity|].
  rewrite (proj1 (@CSRF_key_after_Init
                    (fixtures.node (None, None))
                    samples_frontend.frontend_node _ _ _ _
                    fixtures.world0 _ _ Hi)).
  vm_compute. reflexivity.
Defined.

(** ** The session middleware and the OAuth2 callback *)

Section SessionLaws.

Import Go app handlers.
Context {F : handlers.Collaborators}.

(** X18. An account lookup that succeeds with an empty list makes the
    session middleware panic: for a logged-in session account, when the
    storage answers with no account and no error, [LoadSession] logs the
    miss and then indexes the empty list. *)
Theorem LoadSession_no_accounts_panics
        (h : handler) (v : view) (w r : pointer) (wd : world)
        (found : slice Account) :
  SessionsEnabled (conf h) = true ->
  IsLogged (fst (loadCurrentAccountFromSession v w r)) = true ->
  accounts (Handle (fst (loadCurrentAccountFromSession v w r)))
  = (found, None) ->
  len found = 0 ->
  LoadSession h (Some v) w r wd = Panic "index out of range".
Proof.
  intros He Hl Ha Hn. unfold LoadSession. rewrite He. cbn [negb].
  destruct (loadCurrentAccountFromSession v w r) as [acc entries].
  cbn [fst] in Hl, Ha. rewrite Hl, Ha.
  destruct found as [|[|a0 rest]]; [reflexivity|reflexivity|].
  cbn in Hn. discriminate Hn.
Qed.


(** X20. A logged-in session account is reconciled with the stored
    one: when the storage answers with a valid account first in its list
    and the merged account has followers, followed accounts, blocked and
    ignored accounts and votes, the next handler is served once with
    [loadAccountData] of the session account and the stored account,
    and that merged account is what is saved to the session. *)
Theorem LoadSession_reconciles
        (h : handler) (v : view) (w r : pointer) (wd : world)
        (a0 : Account) (rest : list Account) :
  SessionsEnabled (conf h) = true ->
  IsLogged (fst (loadCurrentAccountFromSession v w r)) = true ->
  accounts (Handle (fst (loadCurrentAccountFromSession v w r)))
  = (elems (a0 :: rest), None) ->
  IsValid a0 = true ->
  (forall f, List.In f [FFollowers; FFollowing; FBlocked; FIgnored; FVotes] ->
     populated
       (get f (loadAccountData
                 (fst (loadCurrentAccountFromSession v w r)) a0)) = true) ->
  exists wd',
    LoadSession h (Some v) w r wd
    = Done ([WithAccount_nil; WithAccount_acc;
             next_ServeHTTP
               (Some (loadAccountData
                        (fst (loadCurrentAccountFromSession v w r)) a0))],
            loadAccountData (fst (loadCurrentAccountFromSession v w r)) a0,
            Some (snd (saveAccountToSession
                         v w r
                         (loadAccountData
                            (fst (loadCurrentAccountFromSession v w r))
                            a0))),
            wd').
Proof.
  intros He Hl Ha Hv Hp. unfold LoadSession. rewrite He. cbn [negb].
  destruct (loadCurrentAccountFromSession v w r) as [acc entries].
  cbn [fst] in Hl, Ha, Hp |- *. rewrite Hl, Ha. cbn [len length Nat.eqb].
  rewrite Hv. cbn [negb bind].
  set (m := loadAccountData acc a0) in *.
  pose proof (Hp FFollowers ltac:(cbn; tauto)) as H1.
  pose proof (Hp FFollowing ltac:(cbn; tauto)) as H2.
  pose proof (Hp FBlocked ltac:(cbn; tauto)) as H3.
  pose proof (Hp FIgnored ltac:(cbn; tauto)) as H4.
  pose proof (Hp FVotes ltac:(cbn; tauto)) as H5.
  cbn [get populated] in H1, H2, H3, H4, H5.
  apply negb_true_iff in H1, H2, H3, H4, H5.
  rewrite H1. cbv beta iota. rewrite H2. cbv beta iota.
  rewrite H3, H4. cbn [orb]. cbv beta iota. rewrite H5. cbv beta iota.
  cbn [bind].
  destruct (saveAccountToSession v w r m) as [[e|] v'];
    eexists; reflexivity.
Qed.

(** X21. The session middleware does not stop after [ctxtErr].  On
    every run that does not panic its own call of the next handler is
    its last step and the only one it makes itself, under the account it
    ends with.  [ctxtErr] is called, with the next handler, the writer
    and the request, exactly when the session account is logged in and
    either the account lookup failed (with the error of the lookup) or
    the first account found is not valid (with a Not found error); the
    run goes on after it and serves the request all the same.  The
    session cookie is cleared exactly when there is no view. *)
Theorem LoadSession_always_serves_next
        (h : handler) (hv hv' : option view) (w r : pointer)
        (wd wd' : world) (ev : list event) (acc : Account) :
  SessionsEnabled (conf h) = true ->
  LoadSession h hv w r wd = Done (ev, acc, hv', wd') ->
  let acc0 := match hv with
              | Some v => fst (loadCurrentAccountFromSession v w r)
              | None => AnonymousAccount
              end in
  ev = removelast ev ++ [next_ServeHTTP (Some acc)]
  /\ (forall a, ~ List.In (next_ServeHTTP a) (removelast ev))
  /\ (forall n w' r' e,
         List.In (ctxtErr n w' r' e) ev <->
         w' = w /\ r' = r /\ IsLogged acc0 = true
         /\ (snd (accounts (Handle acc0)) = Some e
             \/ (exists a0 rest,
                    accounts (Handle acc0) = (elems (a0 :: rest), None)
                    /\ IsValid a0 = false
                    /\ e = NotFoundf "Not found")))
  /\ (List.In clearSessionCookie ev <-> hv = None).
Proof.
  intros He. unfold LoadSession. rewrite He. cbn [negb].
  destruct hv as [v|];
    [destruct (loadCurrentAccountFromSession v w r) as [acc0 entries]|];
    cbn [fst];
    (destruct (IsLogged _) eqn:Hl; cbn [bind];
     [destruct (accounts _) as [found [e|]] eqn:Ha; cbn [bind];
      [|destruct found as [|[|a0 rest]]; cbn [bind];
        [discriminate|discriminate|
          destruct (IsValid a0) eqn:Hv; cbn [negb]]]
     |]);
    repeat match goal with
      | |- context [if ?c then _ else (_, _)] => destruct c
      | |- context [let '(_, _) := ?x in _] =>
          lazymatch x with
          | (_, _) => fail
          | _ => destruct x
          end
      end;
    cbv beta iota; cbn [bind];
    repeat match goal with
      | |- context [let '(_, _) := ?x in _] =>
          lazymatch x with
          | (_, _) => fail
          | _ => destruct x
          end
      end;
    intros [= <- <- _ _]; cbn [removelast app snd fst];
    (split; [reflexivity|
     split; [intros a0' Hin; cbn in Hin;
             repeat (destruct Hin as [Hin|Hin]; try discriminate Hin);
             exact Hin|
     split; [|split; [intros Hin; cbn in Hin;
                      repeat (destruct Hin as [Hin|Hin];
                              try discriminate Hin);
                      try reflexivity; try contradiction|
                      intros Hn; try discriminate Hn; cbn; tauto]]]]).
  all: intros n w' r' e'; destruct n; split.
  all: try (intros Hin; cbn in Hin;
            repeat (destruct Hin as [Hin|Hin]; try discriminate Hin);
            try contradiction;
            injection Hin as <- <- <-;
            repeat split; eauto 8; fail).
  all: intros (Hw' & Hr' & Hl' & Hc); subst w' r'.
  all: try congruence.
  all: destruct Hc as [Hc|(b0 & brest & Hc & Hv' & He')].
  all: cbn in Hc; try discriminate Hc; try congruence.
  all: try (injection Hc as ->); try (injection Hc as <- <-).
  all: try congruence; subst; cbn; tauto.
Qed.

End SessionLaws.

Section CallbackLaws.

Import Go app handlers.
Context {A : app.Collaborators} {F : handlers.Collaborators}.
Variable env : gmap string string.

(** X22. The callback exchanges a code only when the provider reported
    no error and the query carries a code.  With an [error] parameter
    the handler shows one error for the provider followed by one per
    [error_description] value, and does nothing else, even when a code is
    present; without a code it shows one Forbidden error. *)
Theorem HandleCallback_exchange_needs_code
        (h : handler) (v : view) (w r : pointer) (provider : string)
        (q : gmap string (list string)) (wd : world) :
  (is_Some (q !! "error") ->
   exists errs,
     HandleCallback env h v w r provider q wd
     = Done ([HandleErrors errs], v, wd)
     /\ length errs = S (length (default [] (q !! "error_description"))))
  /\ (q !! "error" = None -> Values_Get q "code" = "" ->
      HandleCallback env h v w r provider q wd
      = Done ([HandleErrors
                 [Forbiddenf (provider
                              +:+ " error: Empty authentication token")]],
              v, wd))
  /\ (forall ev v' wd' code,
         HandleCallback env h v w r provider q wd = Done (ev, v', wd') ->
         List.In (exchanged code) ev ->
         q !! "error" = None
         /\ code = Values_Get q "code"
         /\ code <> "").
Proof.
  unfold HandleCallback. split; [|split].
  - intros [x Hx]. rewrite Hx. eexists. split; [reflexivity|].
    rewrite length_app, length_map. reflexivity.
  - intros Hq Hc. rewrite Hq, Hc. reflexivity.
  - intros ev v' wd' code.
    destruct (q !! "error") as [x|];
      [intros [= <- _ _] [Hin|[]]; discriminate Hin|].
    destruct (String.length (Values_Get q "code") =? 0)%nat eqn:Hlen;
      [intros [= <- _ _] [Hin|[]]; discriminate Hin|].
    assert (Hcode : Values_Get q "code" <> "").
    { intros Heq. rewrite Heq in Hlen. discriminate Hlen. }
    destruct (Exchange _ _) as [tok [e|]].
    + intros [= <- _ _] [Hin|[Hin|[]]]; [|discriminate Hin].
      injection Hin as <-. auto.
    + destruct (loadCurrentAccountFromSession v w r) as [account entries].
      destruct (assign_OAuth _ _ _) as [wd1|m]; cbn [bind]; [|discriminate].
      destruct (saveAccountToSession v w r account) as [[e|] v1];
        [|destruct (negb _)];
        intros [= <- _ _] Hin; cbn in Hin;
        repeat (destruct Hin as [Hin|Hin]; try discriminate Hin);
        try contradiction; injection Hin as <-; auto.
Qed.

(** X23. After a successful exchange the callback always redirects to
    "/" with status 302, whether or not the session could be saved; the
    flash message is shown exactly when it could.  The state, the code,
    the provider and the token are written into the metadata of the
    session account, and a session account without metadata makes the
    handler panic after the exchange. *)
Theorem HandleCallback_after_exchange
        (h : handler) (v : view) (w r : pointer) (provider : string)
        (q : gmap string (list string)) (wd : world)
        (tok : option oauth2_Token) :
  q !! "error" = None ->
  Values_Get q "code" <> "" ->
  Exchange (GetOauth2Config env provider (BaseURL (conf h)))
           (Values_Get q "code") = (tok, None) ->
  match Metadata (fst (loadCurrentAccountFromSession v w r)) with
  | nil =>
      HandleCallback env h v w r provider q wd = Panic nil_dereference
  | addr n =>
      exists ev v' wd',
        HandleCallback env h v w r provider q wd
        = Done (exchanged (Values_Get q "code")
                  :: ev ++ [Redirect "/" 302], v', wd')
        /\ (ev = [] \/ exists msg, ev = [addFlashMessage msg])
        /\ (ev = [] <->
            is_Some (fst (saveAccountToSession
                            v w r
                            (fst (loadCurrentAccountFromSession v w r)))))
        /\ heap wd' !! n
           = (fun _ =>
                mkMetadata (mkOAuth (Values_Get q "state")
                                    (Values_Get q "code") provider tok))
               <$> heap wd !! n
  end.
Proof.
  intros Hq Hc Hx. unfold HandleCallback. rewrite Hq.
  destruct (String.length (Values_Get q "code") =? 0)%nat eqn:Hlen.
  { apply Nat.eqb_eq in Hlen. destruct (Values_Get q "code");
      [contradiction Hc; reflexivity|discriminate Hlen]. }
  rewrite Hx.
  destruct (loadCurrentAccountFromSession v w r) as [account entries].
  cbn [fst]. destruct (Metadata account) as [|n]; [reflexivity|].
  cbn [assign_OAuth bind heap emitted record].
  destruct (saveAccountToSession v w r account) as [[e|] v1]; cbn [fst].
  - exists [], v1. eexists. split; [reflexivity|].
    split; [left; reflexivity|]. split; [split; eauto|].
    cbn. rewrite heap_emit. cbn. rewrite lookup_alter_eq. reflexivity.
  - destruct (negb _); eexists [_], v1; eexists;
      (split; [reflexivity|]);
      (split; [right; eauto|]);
      (split; [split; [discriminate|intros [x Hx']; discriminate Hx']|]);
      cbn; rewrite lookup_alter_eq; reflexivity.
Qed.

End CallbackLaws.

Lemma LoadSession_no_accounts_panics_witness :
  @handlers.LoadSession
    samples_frontend.frontend_without_accounts samples_frontend.handler0
    (Some (samples_frontend.view_of
             (handlers.AccountValue samples_frontend.carol_session)))
    (Go.addr 1) (Go.addr 2) fixtures.world0
  = Go.Panic "index out of range".
Proof.
  apply (@LoadSession_no_accounts_panics
           samples_frontend.frontend_without_accounts
           samples_frontend.handler0 _ (Go.addr 1) (Go.addr 2)
           fixtures.world0 (Go.elems [])); reflexivity.
Defined.


Lemma LoadSession_reconciles_witness :
  exists ev acc hv wd',
    @handlers.LoadSession
      samples_frontend.frontend_node samples_frontend.handler0
      (Some (samples_frontend.view_of
               (handlers.AccountValue samples_frontend.carol_session)))
      (Go.addr 1) (Go.addr 2) fixtures.world0
    = Go.Done (ev, acc, hv, wd')
    /\ app.Email acc = "carol@example.org"
    /\ app.Followers acc = Go.elems ["e33c4ff5"].
Proof.
  destruct (@LoadSession_reconciles
              samples_frontend.frontend_node samples_frontend.handler0
              (samples_frontend.view_of
                 (handlers.AccountValue samples_frontend.carol_session))
              (Go.addr 1) (Go.addr 2) fixtures.world0
              samples_frontend.carol_stored [])
    as [wd' Hrun]; try reflexivity.
  - intros f Hf. cbn in Hf.
    repeat (destruct Hf as [<-|Hf]; [reflexivity|]). destruct Hf.
  - eexists _, _, _, wd'. split; [exact Hrun|]. split; reflexivity.
Defined.

Lemma LoadSession_always_serves_next_witness :
  exists ev acc hv' wd',
    @handlers.LoadSession
      samples_frontend.frontend_storage_down samples_frontend.handler0
      (Some (samples_frontend.view_of
               (handlers.AccountValue samples_frontend.carol_session)))
      (Go.addr 1) (Go.addr 2) fixtures.world0
    = Go.Done (ev, acc, hv', wd')
    /\ List.In (handlers.ctxtErr handlers.next (Go.addr 1) (Go.addr 2)
                                 samples_frontend.storage_down) ev
    /\ ev = removelast ev ++ [handlers.next_ServeHTTP (Some acc)].
Proof.
  destruct (@handlers.LoadSession
              samples_frontend.frontend_storage_down
              samples_frontend.handler0
              (Some (samples_frontend.view_of
                       (handlers.AccountValue
                          samples_frontend.carol_session)))
              (Go.addr 1) (Go.addr 2) fixtures.world0)
    as [[[[ev acc] hv'] wd']|m] eqn:Hrun;
    [|vm_compute in Hrun; discriminate Hrun].
  exists ev, acc, hv', wd'. split; [reflexivity|].
  destruct (@LoadSession_always_serves_next
              samples_frontend.frontend_storage_down
              samples_frontend.handler0 _ _ _ _ _ _ _ _ eq_refl Hrun)
    as (Hlast & _ & Hctx & _).
  split; [|exact Hlast].
  apply Hctx. repeat split. left. reflexivity.
Defined.

Lemma HandleCallback_exchange_needs_code_witness :
  exists errs,
    @handlers.HandleCallback
      samples_frontend.frontend_node (fixtures.node (None, None))
      fixtures.env_with_client samples_frontend.handler0
      samples_frontend.view_with_garbage (Go.addr 1) (Go.addr 2)
      "github" samples_frontend.query_with_error fixtures.world0
    = Go.Done ([handlers.HandleErrors errs],
               samples_frontend.view_with_garbage, fixtures.world0)
    /\ length errs = 3.
Proof.
  destruct (proj1 (@HandleCallback_exchange_needs_code
                     (fixtures.node (None, None))
                     samples_frontend.frontend_node
                     fixtures.env_with_client samples_frontend.handler0
                     samples_frontend.view_with_garbage
                     (Go.addr 1) (Go.addr 2) "github"
                     samples_frontend.query_with_error fixtures.world0))
    as [errs [Hrun Hlen]].
  - exists ["access_denied"]. vm_compute. reflexivity.
  - exists errs. split; [exact Hrun|]. rewrite Hlen. vm_compute.
    reflexivity.
Defined.

Lemma HandleCallback_after_exchange_witness :
  exists ev v' wd',
    @handlers.HandleCallback
      samples_frontend.frontend_node (fixtures.node (None, None))
      fixtures.env_with_client samples_frontend.handler0
      (samples_frontend.view_of
         (handlers.AccountValue samples_frontend.carol_stored))
      (Go.addr 1) (Go.addr 2)
      "github" samples_frontend.query_with_code samples_frontend.world9
    = Go.Done (handlers.exchanged "c0de"
                 :: ev ++ [handlers.Redirect "/" 302], v', wd')
    /\ app.heap wd' !! 9%N
       = Some (app.mkMetadata
                 (app.mkOAuth "5tate" "c0de" "github"
                              (Some fixtures.token0))).
Proof.
  pose proof (@HandleCallback_after_exchange
                (fixtures.node (None, None)) samples_frontend.frontend_node
                fixtures.env_with_client samples_frontend.handler0
                (samples_frontend.view_of
                   (handlers.AccountValue samples_frontend.carol_stored))
                (Go.addr 1) (Go.addr 2) "github"
                samples_frontend.query_with_code samples_frontend.world9
                (Some fixtures.token0)) as Hthm.
  cbn [handlers.loadCurrentAccountFromSession] in Hthm.
  destruct Hthm as [ev [v' [wd' [Hrun [_ [_ Hheap]]]]]].
  - vm_compute. reflexivity.
  - vm_compute. discriminate.
  - reflexivity.
  - exists ev, v', wd'. split; [exact Hrun|]. rewrite Hheap.
    vm_compute. reflexivity.
Defined.

(** ** Content items *)

Section ContentLaws.

Import Go content.
Context `{Collaborators}.

Lemma split_at_not_nil sep s : split_at sep s <> [].
Proof.
  destruct s as [|c rest]; cbn [split_at]; [discriminate|].
  destruct (Ascii.eqb c sep); [discriminate|].
  destruct (split_at sep rest); discriminate.
Qed.

Lemma length_split_at sep s :
  length (split_at sep s) = S (count_byte sep s).
Proof.
  induction s as [|c rest IH]; [reflexivity|]. cbn [split_at count_byte].
  destruct (Ascii.eqb c sep); cbn [length]; [rewrite IH; reflexivity|].
  destruct (split_at sep rest) as [|first others] eqn:E;
    [destruct (split_at_not_nil _ _ E)|]. cbn [length] in IH |- *.
  exact IH.
Qed.

Lemma split_at_one sep a :
  count_byte sep a = 0 -> split_at sep a = [a].
Proof.
  induction a as [|c rest IH]; [reflexivity|]. cbn [split_at count_byte].
  destruct (Ascii.eqb c sep); [discriminate|]. intros Hc.
  rewrite (IH Hc). reflexivity.
Qed.

Lemma split_at_app sep a rest :
  count_byte sep a = 0 ->
  split_at sep (a +:+ String sep rest) = a :: split_at sep rest.
Proof.
  induction a as [|c a IH].
  - intros _. change ("" +:+ String sep rest) with (String sep rest).
    cbn [split_at]. rewrite Ascii.eqb_refl. reflexivity.
  - cbn [count_byte]. intros Hc.
    change (String c a +:+ String sep rest)
      with (String c (a +:+ String sep rest)).
    cbn [split_at]. destruct (Ascii.eqb c sep); [discriminate Hc|].
    rewrite (IH Hc). reflexivity.
Qed.

Lemma count_byte_app sep a b :
  count_byte sep (a +:+ b) = count_byte sep a + count_byte sep b.
Proof.
  induction a as [|c a IH]; [reflexivity|].
  change (String c a +:+ b) with (String c (a +:+ b)). cbn [count_byte].
  rewrite IH. lia.
Qed.

Lemma str_append b src : str (append b src) = str b +:+ src.
Proof.
  unfold append.
  destruct (String.length src =? 0)%nat eqn:E.
  - apply Nat.eqb_eq in E. destruct src; [|discriminate E].
    destruct b as [|c sp]; cbn; [reflexivity|].
    clear. induction c as [|x c IH]; [reflexivity|].
    change (String x c +:+ "") with (String x (c +:+ "")).
    rewrite <- IH. reflexivity.
  - destruct b as [|c sp]; [reflexivity|].
    destruct (String.length src <=? String.length sp)%nat; reflexivity.
Qed.

Lemma append_nil_iff b src :
  is_nil_bytes (append b src) = is_nil_bytes b
                                && (String.length src =? 0)%nat.
Proof.
  unfold append.
  destruct (String.length src =? 0)%nat; [rewrite andb_true_r; reflexivity|].
  destruct b as [|c sp]; [reflexivity|].
  destruct (String.length src <=? String.length sp)%nat; reflexivity.
Qed.

(** For data of the form scheme, slash, slash, host, and then nothing or
    a slash and more, [GetDomain] gives the host. *)
Lemma GetDomain_host (c : Content) (scheme mid host tail : string) :
  IsLink c = true ->
  count_byte "/" scheme = 0 ->
  count_byte "/" mid = 0 ->
  count_byte "/" host = 0 ->
  tail = "" \/ (exists t, tail = String "/" t) ->
  str (Data c) = scheme +:+ String "/" (mid +:+ String "/" (host +:+ tail)) ->
  GetDomain c = Done host.
Proof.
  intros Hl Hs Hm Hh Ht Hd. unfold GetDomain. rewrite Hl, Hd. cbn [negb].
  rewrite (split_at_app _ _ _ Hs), (split_at_app _ _ _ Hm).
  destruct Ht as [->|[t ->]].
  - assert (Hnil : host +:+ "" = host).
    { clear. induction host as [|x s IH]; [reflexivity|].
      change (String x s +:+ "") with (String x (s +:+ "")).
      rewrite IH. reflexivity. }
    rewrite Hnil, (split_at_one _ _ Hh). reflexivity.
  - rewrite (split_at_app _ _ _ Hh). reflexivity.
Qed.

(** [GetDomain] panics exactly when the item is a link and its data
    contain fewer than two slashes. *)
Lemma GetDomain_panics_iff (c : Content) :
  (GetDomain c = Panic index_out_of_range
   <-> IsLink c = true /\ count_byte "/" (str (Data c)) < 2)
  /\ (IsLink c = false -> GetDomain c = Done "").
Proof.
  unfold GetDomain. destruct (IsLink c); cbn [negb].
  - pose proof (length_split_at "/" (str (Data c))) as Hlen.
    destruct (split_at "/" (str (Data c))) as [|a [|b [|d rest]]];
      cbn in Hlen; split; try discriminate; split;
      try (intros _; split; [reflexivity|lia]);
      try reflexivity; try discriminate.
    intros [_ Hc]. lia.
  - split; [|reflexivity]. split; [discriminate|intros [Hf _]; discriminate].
Qed.

(** X24. The domain of a link is the text between its second and its
    third slash: for data of the form scheme, slash, slash, host, and
    then nothing or a slash and more, [GetDomain] gives the host.  It
    panics exactly when the item is a link and its data contain fewer
    than two slashes; for anything that is not a link it answers with the
    empty string without looking at the data. *)
Theorem GetDomain_domain (c : Content) :
  (forall scheme mid host tail,
      IsLink c = true ->
      count_byte "/" scheme = 0 ->
      count_byte "/" mid = 0 ->
      count_byte "/" host = 0 ->
      tail = "" \/ (exists t, tail = String "/" t) ->
      str (Data c)
      = scheme +:+ String "/" (mid +:+ String "/" (host +:+ tail)) ->
      GetDomain c = Done host)
  /\ (GetDomain c = Panic index_out_of_range
      <-> IsLink c = true /\ count_byte "/" (str (Data c)) < 2)
  /\ (IsLink c = false -> GetDomain c = Done "").
Proof.
  split; [|exact (GetDomain_panics_iff c)].
  intros scheme mid host tail. apply GetDomain_host.
Qed.

(** Links of an item.  [PermaLink] and the two score links share the
    dated path. *)
Lemma scoreLink_PermaLink (c : Content) (dir : string) :
  scoreLink c dir =
  if IsZero (SubmittedAt c) then Done ""
  else (p <- PermaLink c ;; Done (p +:+ "?" +:+ dir)).
Proof.
  unfold scoreLink, PermaLink.
  destruct (IsZero (SubmittedAt c)); [reflexivity|].
  destruct (prefix (Key c) 8); reflexivity.
Qed.

(** X25. The links of an item.  For an item without a submission time
    the permalink and both score links are empty, whatever its key.
    Otherwise the score links are the permalink followed by "?yay" and
    "?nay", and all three panic exactly when the key has a capacity of
    fewer than 8 bytes. *)
Theorem score_links_extend_PermaLink (c : Content) :
  (IsZero (SubmittedAt c) = true ->
   PermaLink c = Done "" /\ ScoreUPLink c = Done ""
   /\ ScoreDOWNLink c = Done "")
  /\ (IsZero (SubmittedAt c) = false ->
      ScoreUPLink c = (p <- PermaLink c ;; Done (p +:+ "?yay"))
      /\ ScoreDOWNLink c = (p <- PermaLink c ;; Done (p +:+ "?nay"))
      /\ (PermaLink c = Panic bounds_out_of_range <-> bcap (Key c) < 8)).
Proof.
  unfold ScoreUPLink, ScoreDOWNLink. rewrite !scoreLink_PermaLink.
  split; intros Hz; rewrite Hz.
  - unfold PermaLink. rewrite Hz. repeat split.
  - split; [reflexivity|]. split; [reflexivity|].
    unfold PermaLink, prefix. rewrite Hz.
    destruct (Nat.leb_spec 8 (bcap (Key c))) as [Hc|Hc].
    + destruct (Key c); cbn [bind]; split; (discriminate || lia).
    + cbn [bind]. split; [intros _; exact Hc|reflexivity].
Qed.

(** X26. Nesting level.  A top-level item has level 0.  An item with a
    non-empty path whose full path has not been computed yet has the
    number of dots of its path and of its key, plus one for the dot
    between them: a reply is never at level 0. *)
Theorem Level_counts_dots (c : Content) :
  (IsTop c = true -> Level c = 0)
  /\ (fullPath c = nil_bytes -> IsTop c = false -> str (Path c) <> "" ->
      Level c = count_byte "." (str (Path c)) + 1
                + count_byte "." (str (Key c))).
Proof.
  unfold Level, IsTop. split.
  - intros ->. reflexivity.
  - intros Hf -> Hp. unfold FullPath. rewrite Hf. cbn [is_nil_bytes fst].
    unfold blen. rewrite !str_append. cbn [str].
    destruct (str (Path c)) as [|x p] eqn:E; [contradiction Hp; reflexivity|].
    cbn [String.length Nat.ltb Nat.leb].
    change ("" +:+ String x p) with (String x p).
    cbn [String.length]. cbv iota.
    rewrite !str_append, !count_byte_app. cbn [str count_byte].
    change ("" +:+ String x p) with (String x p).
    cbn [count_byte]. rewrite Ascii.eqb_refl.
    destruct (Ascii.eqb x "."); lia.
Qed.

(** X27. The full path is computed once and never refreshed: a second
    call of [FullPath] returns what the first one returned and changes
    nothing, and once a full path is there, later changes of the path or
    the key of the item do not show in it. *)
Theorem FullPath_cached (c : Content) :
  FullPath (snd (FullPath c)) = (fst (FullPath c), snd (FullPath c))
  /\ (forall c',
         fullPath c' = fst (FullPath c) ->
         is_nil_bytes (fst (FullPath c)) = false ->
         FullPath c' = (fst (FullPath c), c')).
Proof.
  split.
  - unfold FullPath.
    destruct (fullPath c) as [|fc fs] eqn:Ef; cbn [is_nil_bytes fst snd].
    + remember (append
                  (if (0 <? blen (append nil_bytes (str (Path c))))%nat
                   then append (append nil_bytes (str (Path c))) "."
                   else append nil_bytes (str (Path c)))
                  (str (Key c))) as fp eqn:Hfp.
      cbn [fullPath set_fullPath Path Key].
      destruct fp as [|fc fs]; cbn [is_nil_bytes]; [|reflexivity].
      rewrite <- Hfp. reflexivity.
    + rewrite Ef. reflexivity.
  - intros c' Hc' Hn. unfold FullPath at 1. rewrite Hc', Hn. reflexivity.
Qed.

End ContentLaws.

Section ContentHashes.

Import Go content.

Lemma slice_to_slice_to (s : string) (n m : nat) :
  m <= n -> slice_to (slice_to s n) m = slice_to s m.
Proof.
  revert s n; induction m as [|m IH]; intros s n Hmn.
  - destruct (slice_to s n), s; reflexivity.
  - destruct n as [|n]; [lia|]. destruct s as [|c r]; [reflexivity|].
    cbn. rewrite IH by lia. reflexivity.
Qed.

Lemma slice_to_app (a b : string) (n : nat) :
  n <= String.length a -> slice_to (a +:+ b) n = slice_to a n.
Proof.
  revert a; induction n as [|n IH]; intros a Hn.
  - destruct a; [destruct b|]; reflexivity.
  - destruct a as [|c a]; cbn in Hn; [lia|].
    change (String c a +:+ b) with (String c (a +:+ b)). cbn.
    rewrite IH by lia. reflexivity.
Qed.

Lemma prefix_shorter (b : bytes) (n m : nat) (long : string) :
  m <= n -> prefix b n = Done long -> prefix b m = Done (slice_to long m).
Proof.
  unfold prefix. intros Hmn.
  destruct (Nat.leb_spec n (bcap b)) as [Hn|Hn]; [|discriminate].
  destruct (Nat.leb_spec m (bcap b)) as [Hm|Hm]; [|lia].
  destruct b as [|c sp]; intros [= <-].
  - destruct m; reflexivity.
  - rewrite slice_to_slice_to by exact Hmn. reflexivity.
Qed.

(** X28. The short hashes of an item are prefixes of one another and of
    its key: whenever [Hash16] succeeds [Hash8] is its first 8 bytes,
    whenever [Hash32] succeeds [Hash16] is its first 16 bytes, and for a
    key of at least 32 bytes [Hash32] is the first 32 bytes of [Hash64];
    [Hash] is [Hash8]. *)
Theorem Hash_prefixes (c : Content) :
  Hash c = Hash8 c
  /\ (forall b, Hash16 c = Done b -> Hash8 c = Done (slice_to b 8))
  /\ (forall d, Hash32 c = Done d -> Hash16 c = Done (slice_to d 16))
  /\ (32 <= blen (Key c) -> Hash32 c = Done (slice_to (Hash64 c) 32)).
Proof.
  unfold Hash, Hash8, Hash16, Hash32, Hash64.
  split; [reflexivity|]. split; [|split].
  - intros b. apply prefix_shorter. lia.
  - intros d. apply prefix_shorter. lia.
  - unfold prefix, blen, bcap. destruct (Key c) as [|k sp]; cbn [str].
    + cbn. lia.
    + intros Hk.
      destruct (Nat.leb_spec 32 (String.length k + String.length sp));
        [|lia].
      rewrite slice_to_app by exact Hk. reflexivity.
Qed.

End ContentHashes.

Lemma GetDomain_domain_witness :
  @content.GetDomain samples_content.link_item = Go.Done "example.org"
  /\ @content.GetDomain samples_content.reply_item = Go.Done "".
Proof.
  split.
  - apply (proj1 (GetDomain_domain samples_content.link_item)
                 "https:" "" "example.org" "/story/1");
      try reflexivity.
    right. exists "story/1". reflexivity.
  - apply (proj2 (proj2 (GetDomain_domain samples_content.reply_item))).
    reflexivity.
Defined.

Lemma score_links_extend_PermaLink_witness :
  @content.PermaLink samples_content.calendar samples_content.link_item
  = Go.Done "/2019/03/01/9f86d081"
  /\ @content.ScoreUPLink samples_content.calendar samples_content.link_item
     = Go.Done "/2019/03/01/9f86d081?yay".
Proof.
  split; [vm_compute; reflexivity|].
  rewrite (proj1 (proj2 (@score_links_extend_PermaLink
                           samples_content.calendar
                           samples_content.link_item) eq_refl)).
  vm_compute. reflexivity.
Defined.

Lemma Level_counts_dots_witness :
  @content.Level samples_content.calendar samples_content.reply_item = 2.
Proof.
  rewrite (proj2 (@Level_counts_dots samples_content.calendar
                    samples_content.reply_item));
    [reflexivity|reflexivity|reflexivity|discriminate].
Defined.

Lemma FullPath_cached_witness :
  @content.FullPath
    samples_content.calendar
    (snd (@content.FullPath samples_content.calendar
                            samples_content.reply_item))
  = (fst (@content.FullPath samples_content.calendar
                            samples_content.reply_item),
     snd (@content.FullPath samples_content.calendar
                            samples_content.reply_item)).
Proof.
  apply (proj1 (@FullPath_cached samples_content.calendar
                  samples_content.reply_item)).
Defined.

Lemma Hash_prefixes_witness :
  content.Hash8 samples_content.link_item = Go.Done "9f86d081".
Proof.
  rewrite (proj1 (proj2 (Hash_prefixes samples_content.link_item))
                 "9f86d081884c7d65");
    reflexivity.
Defined.

(** ** The error response of the API *)

Section ErrorResponseLaws.

Import Go api_errors.
Context `{Collaborators}.

Lemma collect_spec errs :
  forall entries logged,
    collect errs entries logged =
    if forallb (fun e => match e with Some _ => true | None => false end) errs
    then (entries ++ map entry_of (omap id errs),
          logged ++ map Error_text (omap id errs), false)
    else (fst (fst (collect errs entries logged)),
          snd (fst (collect errs entries logged)), true).
Proof.
  induction errs as [|[e|] rest IH]; intros entries logged; cbn.
  - rewrite !app_nil_r. reflexivity.
  - rewrite IH.
    destruct (forallb _ rest); [rewrite <- !app_assoc; reflexivity|].
    reflexivity.
  - reflexivity.
Qed.

Lemma omap_id_length {A} (l : list (option A)) :
  forallb (fun e => match e with Some _ => true | None => false end) l
  = true ->
  length (omap id l) = length l.
Proof.
  induction l as [|[a|] l IH]; cbn; [reflexivity| |discriminate].
  intros Hl. rewrite (IH Hl). reflexivity.
Qed.

(** X29. The error response.  For a list of errors none of which is nil,
    [HandleError] writes the given status, marks the response as JSON
    that must not be cached, and sends one entry per error, in order;
    outside the DEV environment no entry carries a stack trace.  A nil
    error in the list makes it panic after the status has been written
    and before any body is. *)
Theorem HandleError_response
        (w : response) (code : nat) (errs : list (option api_error)) :
  (forallb (fun e => match e with Some _ => true | None => false end) errs
   = true ->
   exists w' logged entries,
     HandleError w code errs = returned w' logged
     /\ written_status w' = Some code
     /\ header w' !! "Content-Type"
        = Some ["application/json; charset=utf-8"]
     /\ header w' !! "Cache-Control" = Some ["no-store, must-revalidate"]
     /\ body w' = Some (Marshal (mkEresp code entries))
     /\ length entries = length errs
     /\ length logged = length errs
     /\ (Env_is_DEV = false ->
         forall en, List.In en entries -> Trace en = []))
  /\ (forallb (fun e => match e with Some _ => true | None => false end) errs
      = false ->
      exists w' logged,
        HandleError w code errs = panicked w' logged
        /\ written_status w' = Some code
        /\ body w' = body w).
Proof.
  unfold HandleError. cbv zeta. rewrite collect_spec. split; intros Hall.
  - rewrite Hall. cbn [app].
    eexists _, _, _. split; [reflexivity|]. cbn [written_status header body].
    split; [reflexivity|].
    split; [rewrite !lookup_insert_ne by discriminate;
            apply lookup_insert_eq|].
    split; [rewrite !lookup_insert_ne by discriminate;
            apply lookup_insert_eq|].
    split; [reflexivity|].
    rewrite !length_map, (omap_id_length _ Hall).
    split; [reflexivity|]. split; [reflexivity|].
    intros Hdev en Hin. apply List.in_map_iff in Hin.
    destruct Hin as [e [<- _]]. destruct e; cbn; [reflexivity..| |reflexivity].
    rewrite Hdev. reflexivity.
  - rewrite Hall. eexists _, _. split; [reflexivity|]. split; reflexivity.
Qed.

End ErrorResponseLaws.

(** ** Connecting to the database *)

Section ConnectionLaws.

Import Go bootstrap.
Context `{Collaborators}.

Lemma dots_app a b : dots (a ++ b) = dots a + dots b.
Proof. apply count_occ_app. Qed.

Lemma dots_dot : dots ["."] = 1.
Proof. reflexivity. Qed.

Lemma dots_newline : dots [String "010"%char ""] = 0.
Proof. reflexivity. Qed.

Lemma tenth_step (cnt : nat) :
  S cnt / 10 = cnt / 10 + (if (S cnt mod 10 =? 0)%nat then 1 else 0).
Proof.
  pose proof (Nat.div_mod_eq cnt 10) as H1.
  pose proof (Nat.div_mod_eq (S cnt) 10) as H2.
  pose proof (Nat.mod_upper_bound cnt 10 ltac:(lia)) as H3.
  pose proof (Nat.mod_upper_bound (S cnt) 10 ltac:(lia)) as H4.
  destruct (Nat.eqb_spec (S cnt mod 10) 0) as [E|E]; lia.
Qed.

Lemma ping_loop_connects (k : nat) :
  (forall i, i < k -> Ping i = ping_net_error) ->
  Ping k = ping_ok ->
  forall fuel cnt printed,
    cnt <= k -> k - cnt < fuel ->
    exists out,
      ping_loop fuel cnt printed = connected out k
      /\ dots out + cnt / 10 = dots printed + k / 10.
Proof.
  intros Hnet Hok. induction fuel as [|fuel IH]; intros cnt printed Hc Hf;
    [lia|].
  cbn [ping_loop].
  destruct (Nat.eq_dec cnt k) as [->|Hne].
  - rewrite Hok. eexists. split; [reflexivity|].
    destruct (0 <? k)%nat; rewrite ?dots_app, ?dots_newline; lia.
  - rewrite (Hnet cnt) by lia.
    match goal with
    | |- context [ping_loop fuel (S cnt) ?p] =>
        destruct (IH (S cnt) p) as [out [Hrun Hd]]; [lia|lia|];
        exists out; split; [exact Hrun|];
        rewrite tenth_step in Hd;
        destruct (S cnt mod 10 =? 0)%nat;
        destruct ((S cnt =? 720 - 22)%nat || (S cnt mod 720 =? 0)%nat);
        rewrite ?dots_app, ?dots_dot, ?dots_newline in Hd; lia
    end.
Qed.

Lemma ping_loop_short (k : nat) :
  (forall i, i < k -> Ping i = ping_net_error) ->
  forall fuel cnt printed,
    cnt + fuel <= k -> ping_loop fuel cnt printed = still_pinging.
Proof.
  intros Hnet. induction fuel as [|fuel IH]; intros cnt printed Hk;
    [reflexivity|].
  cbn [ping_loop]. rewrite (Hnet cnt) by lia. apply IH. lia.
Qed.

(** X30. [dbConnection] waits for the database as long as the pings
    fail with a network error and never gives up.  When the first [k]
    pings fail so and the next one succeeds, it returns the handle after
    sleeping [k] times and printing one dot for every tenth failure; no
    run of [k] steps or fewer returns.  When every ping fails with a
    network error it does not return at all. *)
Theorem dbConnection_waits
        (dbHost dbUser dbPw dbName : string) (k : nat) :
  dbUser <> "" ->
  sql_Open (connStr dbHost dbUser dbPw dbName) = None ->
  (forall i, i < k -> Ping i = ping_net_error) ->
  (Ping k = ping_ok ->
   forall fuel, k < fuel ->
     exists out,
       dbConnection fuel dbHost dbUser dbPw dbName = connected out k
       /\ dots out = k / 10)
  /\ (forall fuel, fuel <= k ->
        dbConnection fuel dbHost dbUser dbPw dbName = still_pinging).
Proof.
  intros Hu Ho Hnet. unfold dbConnection.
  rewrite (bool_decide_eq_false_2 _ Hu). cbn [andb]. rewrite Ho. split.
  - intros Hok fuel Hf.
    destruct (ping_loop_connects k Hnet Hok fuel 0 []) as [out [Hrun Hd]];
      [lia|lia|].
    exists out. split; [exact Hrun|].
    change (dots []) with 0 in Hd. change (0 / 10) with 0 in Hd. lia.
  - intros fuel Hf. apply (ping_loop_short k Hnet). lia.
Qed.

End ConnectionLaws.

Lemma HandleError_response_witness :
  exists w' logged,
    @api_errors.HandleError
      samples_tools.production samples_tools.response0 404
      [Some (api_errors.Err "not found" ["handlers.go:12"]); None]
    = api_errors.panicked w' logged
    /\ api_errors.written_status w' = Some 404
    /\ api_errors.body w' = None.
Proof.
  apply (proj2 (@HandleError_response
                  samples_tools.production samples_tools.response0 404
                  [Some (api_errors.Err "not found" ["handlers.go:12"]);
                   None])).
  reflexivity.
Defined.

Lemma dbConnection_waits_witness :
  exists out,
    @bootstrap.dbConnection samples_tools.slow_database 30
                            "db" "littr" "s3cr3t" "littr"
    = bootstrap.connected out 25
    /\ bootstrap.dots out = 2.
Proof.
  apply (proj1 (@dbConnection_waits samples_tools.slow_database
                  "db" "littr" "s3cr3t" "littr" 25
                  ltac:(discriminate) eq_refl
                  ltac:(intros i Hi; apply Nat.ltb_lt in Hi;
                        cbv [bootstrap.Ping samples_tools.slow_database];
                        rewrite Hi; reflexivity))
               eq_refl 30).
  lia.
Defined.
